(** * Host-side attachment lifecycle of the OVS userspace CNI plugin

    A shallow embedding of [cniovs/cniovs.go] (package [cniovs]): the
    entry points [AddOnHost] and [DelFromHost] and the helpers they call,
    together with a model of the collaborators the file drives (the
    vswitch control commands, the saved-attachment store, the socket
    directory, the random source and Go's [regexp.MatchString]).

    Go functions that return an [error] are actions of a state monad over
    [World] whose result is [error] ([None] is Go's [nil]); a run-time
    panic (a string sliced past its end) is a separate outcome.  A Go
    pointer argument that the callee writes through ([conf], [data]) is
    passed in and returned. *)

From Stdlib Require Import ZArith String Ascii List Bool Lia.
From Stdlib.Strings Require Import Byte.
From stdpp Require Import gmap strings list fin_maps.

Local Open Scope string_scope.

(** ** Request, identity and saved data

    The fields of [usrsptypes.NetConf], [skel.CmdArgs], [current.Result]
    and [ovsdb.OvsSavedData] that [cniovs.go] reads or writes. *)

Record BridgeConfT : Type := { BridgeName : string }.

Record VhostConfT : Type := { Mode : string }.

Record HostConfT : Type := {
  NetType : string;
  IfType : string;
  BridgeConf : BridgeConfT;
  VhostConf : VhostConfT
}.

Record NetConf : Type := { HostConf : HostConfT }.

Record CmdArgs : Type := { ContainerID : string; IfName : string }.

Record Result : Type := { IPs : list string }.

Record OvsSavedData : Type := {
  Vhostname : string;
  VhostMac : string;
  IfMac : string
}.

(** [var data ovsdb.OvsSavedData]: the zero value. *)
Definition zeroSavedData : OvsSavedData :=
  {| Vhostname := ""; VhostMac := ""; IfMac := "" |}.

(** [conf.HostConf.NetType = v] *)
Definition set_NetType (v : string) (conf : NetConf) : NetConf :=
  {| HostConf :=
       {| NetType := v;
          IfType := conf.(HostConf).(IfType);
          BridgeConf := conf.(HostConf).(BridgeConf);
          VhostConf := conf.(HostConf).(VhostConf) |} |}.

(** [conf.HostConf.BridgeConf.BridgeName = v] *)
Definition set_BridgeName (v : string) (conf : NetConf) : NetConf :=
  {| HostConf :=
       {| NetType := conf.(HostConf).(NetType);
          IfType := conf.(HostConf).(IfType);
          BridgeConf := {| BridgeName := v |};
          VhostConf := conf.(HostConf).(VhostConf) |} |}.

Definition set_VhostMac (v : string) (data : OvsSavedData) : OvsSavedData :=
  {| Vhostname := data.(Vhostname); VhostMac := v; IfMac := data.(IfMac) |}.

Definition set_Vhostname (v : string) (data : OvsSavedData) : OvsSavedData :=
  {| Vhostname := v; VhostMac := data.(VhostMac); IfMac := data.(IfMac) |}.

Definition set_IfMac (v : string) (data : OvsSavedData) : OvsSavedData :=
  {| Vhostname := data.(Vhostname); VhostMac := data.(VhostMac); IfMac := v |}.

(** [const defaultBridge = "br0"] *)
Definition defaultBridge : string := "br0".

(** ** Paths, external calls and errors *)

(** The files the plugin touches all live in [usrspdb.DefaultSocketDir];
    a path is that directory or an entry of it. *)
Inductive path : Type :=
| DefaultSocketDir
| InSocketDir (fileName : string).

(** [filepath.Join(dir, fileName)] *)
Definition filepath_Join (dir : path) (fileName : string) : path :=
  match dir with
  | DefaultSocketDir => InSocketDir fileName
  | InSocketDir d => InSocketDir (d +:+ "/" +:+ fileName)
  end.

(** The calls into collaborators that can be made to fail. *)
Inductive Call : Type :=
| op_createBridge
| op_deleteBridge
| op_createVhostPort
| op_getVhostPortMac
| op_deleteVhostPort
| op_SaveConfig
| op_Stat
| op_MkdirAll
| op_Open
| op_Readdirnames
| op_Remove (p : path).

Inductive error_value : Type :=
| errorString (msg : string)
| ErrNotExist
| ErrNotEmpty
| ErrEntropy
| ErrSyntax (pattern : string)
| ConfigNotFound
| VswitchOperationFailed (c : Call)
| FilesystemError (c : Call)
| StoreWriteFailed.

(** Go's [error]: [None] is [nil]. *)
Definition error : Type := option error_value.

Abbreviation nil_error := (@None error_value).

(** [errors.New(msg)] *)
Definition errors_New (msg : string) : error := Some (errorString msg).

(** [os.IsNotExist(err)] *)
Definition os_IsNotExist (err : error) : bool :=
  match err with
  | Some ErrNotExist => true
  | _ => false
  end.

#[global] Instance path_eq_dec : EqDecision path.
Proof. solve_decision. Defined.

#[global] Instance Call_eq_dec : EqDecision Call.
Proof. solve_decision. Defined.

(** ** The host: vswitch, socket directory, saved-attachment store *)

(** A vhost-user port of the vswitch. *)
Record Port : Type := {
  port_bridge : string;
  port_socketDir : path;
  port_socketRef : string;
  port_clientMode : bool;
  port_mac : string
}.

Record World : Type := {
  bridges : gset string;
  ports : gmap string Port;
  sockDir : option (gset string);
  saved : gmap (string * string) OvsSavedData;
  vswitchMac : string;
  entropy : list byte;
  failing : list Call
}.

Definition set_bridges (f : gset string -> gset string) (w : World) : World :=
  {| bridges := f w.(bridges); ports := w.(ports); sockDir := w.(sockDir);
     saved := w.(saved); vswitchMac := w.(vswitchMac);
     entropy := w.(entropy); failing := w.(failing) |}.

Definition set_ports (f : gmap string Port -> gmap string Port) (w : World) : World :=
  {| bridges := w.(bridges); ports := f w.(ports); sockDir := w.(sockDir);
     saved := w.(saved); vswitchMac := w.(vswitchMac);
     entropy := w.(entropy); failing := w.(failing) |}.

Definition set_sockDir (d : option (gset string)) (w : World) : World :=
  {| bridges := w.(bridges); ports := w.(ports); sockDir := d;
     saved := w.(saved); vswitchMac := w.(vswitchMac);
     entropy := w.(entropy); failing := w.(failing) |}.

Definition set_saved
    (f : gmap (string * string) OvsSavedData -> gmap (string * string) OvsSavedData)
    (w : World) : World :=
  {| bridges := w.(bridges); ports := w.(ports); sockDir := w.(sockDir);
     saved := f w.(saved); vswitchMac := w.(vswitchMac);
     entropy := w.(entropy); failing := w.(failing) |}.

Definition set_entropy (e : list byte) (w : World) : World :=
  {| bridges := w.(bridges); ports := w.(ports); sockDir := w.(sockDir);
     saved := w.(saved); vswitchMac := w.(vswitchMac);
     entropy := e; failing := w.(failing) |}.

(** ** The monad: state passing over [World], with panics *)

Inductive outcome (A : Type) : Type :=
| Returns (a : A)
| Panics (msg : string).

Arguments Returns {A} a.
Arguments Panics {A} msg.

Definition M (A : Type) : Type := World -> outcome A * World.

Definition ret {A : Type} (a : A) : M A := fun w => (Returns a, w).

Definition bind {A B : Type} (c : M A) (k : A -> M B) : M B :=
  fun w =>
    match c w with
    | (Returns a, w') => k a w'
    | (Panics msg, w') => (Panics msg, w')
    end.

Definition panic {A : Type} (msg : string) : M A := fun w => (Panics msg, w).

Definition gets {A : Type} (f : World -> A) : M A := fun w => (Returns (f w), w).

Definition modify (f : World -> World) : M unit := fun w => (Returns tt, f w).

Notation "'let*' x ':=' c 'in' k" := (bind c (fun x => k))
  (at level 10, x pattern, c at level 200, k at level 200).

(** Whether the call [c] is one of those that currently fail. *)
Definition fails (c : Call) : M bool :=
  gets (fun w => bool_decide (c ∈ w.(failing))).

(** ** Vswitch control commands *)

(** Modelled from the spec: [findBridge] is defined in another file of
    package [cniovs], whose code is not available.  It "queries bridge
    existence" (section 4.3). *)
Definition findBridge (bridgeName : string) : M bool :=
  gets (fun w => bool_decide (bridgeName ∈ w.(bridges))).

(** Modelled from the spec: [createBridge], absent like [findBridge].
    "Bridge create-by-name" (section 6); creating a bridge that exists is
    a success (section 5); a failing call is a [VswitchOperationFailed]
    and leaves the vswitch as it was (section 7). *)
Definition createBridge (bridgeName : string) : M error :=
  let* failed := fails op_createBridge in
  if (failed : bool) then ret (Some (VswitchOperationFailed op_createBridge))
  else
    let* _ := modify (set_bridges (fun bs => {[ bridgeName ]} ∪ bs)) in
    ret nil_error.

(** Modelled from the spec: [deleteBridge], absent like [findBridge].
    "Bridge delete-by-name" (section 6); deleting a bridge that does not
    exist is a success (section 5). *)
Definition deleteBridge (bridgeName : string) : M error :=
  let* failed := fails op_deleteBridge in
  if (failed : bool) then ret (Some (VswitchOperationFailed op_deleteBridge))
  else
    let* _ := modify (set_bridges (fun bs => bs ∖ {[ bridgeName ]})) in
    ret nil_error.

(** Modelled from the spec: [doesBridgeContainInterfaces], absent like
    [findBridge].  It "queries whether any interface is still attached to"
    the bridge (section 4.3). *)
Definition doesBridgeContainInterfaces (bridgeName : string) : M bool :=
  gets (fun w =>
    bool_decide (map_Exists (fun _ p => p.(port_bridge) = bridgeName) w.(ports))).

(** Modelled from the spec: [createVhostPort], absent like [findBridge].
    It "invokes the vswitch control path to add a vhost-user port whose
    socket lives under socketDir/socketRef, in client or server socket
    mode as requested, attached to bridgeName if non-empty" and returns
    the port's name (section 4.2); the port is named after the socket
    reference, and the vswitch gives it the MAC address [vswitchMac]. *)
Definition createVhostPort (sockDir : path) (sockRef : string)
    (clientMode : bool) (bridgeName : string) : M (string * error) :=
  let* failed := fails op_createVhostPort in
  if (failed : bool) then ret ("", Some (VswitchOperationFailed op_createVhostPort))
  else
    let* mac := gets vswitchMac in
    let* _ := modify (set_ports (insert sockRef
                {| port_bridge := bridgeName;
                   port_socketDir := sockDir;
                   port_socketRef := sockRef;
                   port_clientMode := clientMode;
                   port_mac := mac |})) in
    ret (sockRef, nil_error).

(** Modelled from the spec: [getVhostPortMac], absent like [findBridge].
    It "queries the vswitch for the MAC address bound to portName"
    (section 4.2). *)
Definition getVhostPortMac (vhostName : string) : M (string * error) :=
  let* failed := fails op_getVhostPortMac in
  if (failed : bool) then ret ("", Some (VswitchOperationFailed op_getVhostPortMac))
  else
    let* p := gets (fun w => w.(ports) !! vhostName) in
    match p with
    | Some p => ret (p.(port_mac), nil_error)
    | None => ret ("", Some (VswitchOperationFailed op_getVhostPortMac))
    end.

(** Modelled from the spec: [deleteVhostPort], absent like [findBridge].
    It "removes the port from the bridge if present; tolerant of the port
    already being absent (treated as success)" (section 4.2). *)
Definition deleteVhostPort (vhostName : string) (bridgeName : string) : M error :=
  let* failed := fails op_deleteVhostPort in
  if (failed : bool) then ret (Some (VswitchOperationFailed op_deleteVhostPort))
  else
    let* _ := modify (set_ports (fun ps =>
                match ps !! vhostName with
                | Some p =>
                    if bool_decide (p.(port_bridge) = bridgeName)
                    then delete vhostName ps else ps
                | None => ps
                end)) in
    ret nil_error.

(** ** Saved-attachment store (package [ovsdb]) *)

(** The key of an attachment: (container ID, interface name). *)
Definition identity (args : CmdArgs) : string * string :=
  (args.(ContainerID), args.(IfName)).

(** Modelled from the spec: [ovsdb.SaveConfig] is defined in package
    [ovsdb], whose code is not available.  It persists the record "keyed
    by identity" (section 4.1, step 4); the write can fail (section 7). *)
Definition SaveConfig (conf : NetConf) (args : CmdArgs) (data : OvsSavedData) : M error :=
  let* failed := fails op_SaveConfig in
  if (failed : bool) then ret (Some StoreWriteFailed)
  else
    let* _ := modify (set_saved (insert (identity args) data)) in
    ret nil_error.

(** Modelled from the spec: [ovsdb.LoadConfig], absent like [SaveConfig].
    It loads the record for the identity and "fails with ConfigNotFound if
    absent" (section 4.1, step 1); the store "retrieves and then erases it
    at Delete time" (section 2), and [DelFromHost] makes no other call to
    the store, so the load erases the record. *)
Definition LoadConfig (conf : NetConf) (args : CmdArgs) (data : OvsSavedData)
    : M (error * OvsSavedData) :=
  let* r := gets (fun w => w.(saved) !! identity args) in
  match r with
  | None => ret (Some ConfigNotFound, data)
  | Some d =>
      let* _ := modify (set_saved (delete (identity args))) in
      ret (nil_error, d)
  end.

(** ** Go's [os] package on the socket directory *)

(** [os.Stat(p)], keeping only the error. *)
Definition os_Stat (p : path) : M error :=
  let* failed := fails op_Stat in
  if (failed : bool) then ret (Some (FilesystemError op_Stat))
  else
    let* d := gets sockDir in
    match d, p with
    | None, _ => ret (Some ErrNotExist)
    | Some _, DefaultSocketDir => ret nil_error
    | Some files, InSocketDir f =>
        if bool_decide (f ∈ files) then ret nil_error else ret (Some ErrNotExist)
    end.

(** [os.MkdirAll(p, perm)]: nothing to do when the directory exists. *)
Definition os_MkdirAll (p : path) (perm : Z) : M error :=
  let* failed := fails op_MkdirAll in
  if (failed : bool) then ret (Some (FilesystemError op_MkdirAll))
  else
    let* d := gets sockDir in
    match d, p with
    | None, DefaultSocketDir =>
        let* _ := modify (set_sockDir (Some ∅)) in ret nil_error
    | Some _, DefaultSocketDir => ret nil_error
    | None, InSocketDir f =>
        let* _ := modify (set_sockDir (Some {[ f ]})) in ret nil_error
    | Some files, InSocketDir f =>
        let* _ := modify (set_sockDir (Some ({[ f ]} ∪ files))) in ret nil_error
    end.

(** An open file: the path it was opened at. *)
Definition File : Type := path.

(** [os.Open(p)] *)
Definition os_Open (p : path) : M (File * error) :=
  let* failed := fails op_Open in
  if (failed : bool) then ret (p, Some (FilesystemError op_Open))
  else
    let* d := gets sockDir in
    match d, p with
    | None, _ => ret (p, Some ErrNotExist)
    | Some _, DefaultSocketDir => ret (p, nil_error)
    | Some files, InSocketDir f =>
        if bool_decide (f ∈ files) then ret (p, nil_error) else ret (p, Some ErrNotExist)
    end.

(** [folder.Readdirnames(0)]: all the names in the directory. *)
Definition Readdirnames (folder : File) (n : Z) : M (list string * error) :=
  let* failed := fails op_Readdirnames in
  if (failed : bool) then ret ([], Some (FilesystemError op_Readdirnames))
  else
    let* d := gets sockDir in
    match d, folder with
    | Some files, DefaultSocketDir => ret (elements files, nil_error)
    | Some _, InSocketDir _ => ret ([], Some (FilesystemError op_Readdirnames))
    | None, _ => ret ([], Some ErrNotExist)
    end.

(** [os.Remove(p)]: removes a file, or a directory that is empty. *)
Definition os_Remove (p : path) : M error :=
  let* failed := fails (op_Remove p) in
  if (failed : bool) then ret (Some (FilesystemError (op_Remove p)))
  else
    let* d := gets sockDir in
    match d, p with
    | None, _ => ret (Some ErrNotExist)
    | Some files, DefaultSocketDir =>
        if bool_decide (files = ∅)
        then let* _ := modify (set_sockDir None) in ret nil_error
        else ret (Some ErrNotEmpty)
    | Some files, InSocketDir f =>
        if bool_decide (f ∈ files)
        then let* _ := modify (set_sockDir (Some (files ∖ {[ f ]}))) in ret nil_error
        else ret (Some ErrNotExist)
    end.

(** ** Go's [crypto/rand] *)

(** [rand.Read(buf)] for a buffer of [n] bytes: the next [n] bytes of the
    random source, or an error when the source cannot supply them. *)
Definition rand_Read (n : nat) : M (list byte * error) :=
  let* e := gets entropy in
  if (n <=? length e)%nat
  then let* _ := modify (set_entropy (drop n e)) in ret (take n e, nil_error)
  else ret (replicate n "000"%byte, Some ErrEntropy).

(** ** Go strings *)

(** [s[:n]]: panics when [s] has fewer than [n] bytes. *)
Definition slice_to (s : string) (n : nat) : M string :=
  if (n <=? String.length s)%nat then ret (substring 0 n s)
  else panic "slice bounds out of range".

(** [strings.Join(elems, sep)] *)
Fixpoint strings_Join (elems : list string) (sep : string) : string :=
  match elems with
  | [] => ""
  | [e] => e
  | e :: rest => e +:+ sep +:+ strings_Join rest sep
  end.

(** ** Go's [regexp.MatchString]

    The pattern syntax covered here is the one a container ID and an
    interface name made of ordinary characters and dots give rise to: an
    ordinary character stands for itself, [.] for any character but a
    newline, and a postfixed [*] repeats the item before it.  A pattern
    that uses another metacharacter of Go's syntax is outside this
    fragment and is reported like a pattern that does not compile; the
    statements below that depend on a match keep to the fragment.  As in
    Go, a match may start and end anywhere in the string.  Characters are
    bytes, which is Go's reading of names written in ASCII. *)
Module GoRegexp.

Inductive atom : Type :=
| Lit (c : ascii)
| AnyCharNotNL.

Record piece : Type := { p_atom : atom; p_star : bool }.

Definition regex : Type := list piece.

Definition metacharacters : list ascii :=
  list_ascii_of_string "\.+*?()|[]{}^$".

Definition isMeta (c : ascii) : bool := existsb (Ascii.eqb c) metacharacters.

Definition parseAtom (c : ascii) : option atom :=
  if Ascii.eqb c "." then Some AnyCharNotNL
  else if isMeta c then None
  else Some (Lit c).

Fixpoint parse (pattern : string) : option regex :=
  match pattern with
  | EmptyString => Some []
  | String c rest =>
      match parseAtom c with
      | None => None
      | Some a =>
          match rest with
          | String c' rest' =>
              if Ascii.eqb c' "*"
              then option_map (cons {| p_atom := a; p_star := true |}) (parse rest')
              else option_map (cons {| p_atom := a; p_star := false |}) (parse rest)
          | EmptyString =>
              option_map (cons {| p_atom := a; p_star := false |}) (parse rest)
          end
      end
  end.

Definition atomMatches (a : atom) (c : ascii) : bool :=
  match a with
  | Lit c' => Ascii.eqb c' c
  | AnyCharNotNL => negb (Ascii.eqb c "010")
  end.

(** Some prefix of the string matches the pieces. *)
Fixpoint matchHere (re : regex) : string -> bool :=
  match re with
  | [] => fun _ => true
  | p :: re' =>
      if p.(p_star) then
        fix star (s : string) : bool :=
          matchHere re' s ||
          match s with
          | String c s' => atomMatches p.(p_atom) c && star s'
          | EmptyString => false
          end
      else
        fun s =>
          match s with
          | String c s' => atomMatches p.(p_atom) c && matchHere re' s'
          | EmptyString => false
          end
  end.

(** Some substring of the string matches the pieces. *)
Fixpoint matchAnywhere (re : regex) (s : string) : bool :=
  matchHere re s ||
  match s with
  | String _ s' => matchAnywhere re s'
  | EmptyString => false
  end.

(** [regexp.MatchString(pattern, s)] *)
Definition MatchString (pattern : string) (s : string) : bool * error :=
  match parse pattern with
  | Some re => (matchAnywhere re s, nil_error)
  | None => (false, Some (ErrSyntax pattern))
  end.

End GoRegexp.

(** ** [cniovs.go]: utility functions *)

Definition byte_to_Z (b : byte) : Z := Z.of_N (Byte.to_N b).

(** [buf[i]] for the six-byte buffer that [rand.Read] filled. *)
Definition index (buf : list byte) (i : nat) : Z :=
  byte_to_Z (nth i buf "000"%byte).

Definition hexDigit (d : Z) : ascii :=
  match String.get (Z.to_nat d) "0123456789abcdef" with
  | Some c => c
  | None => "?"%char
  end.

(** [fmt.Sprintf("%02x", v)] for a byte value [v]. *)
Definition Sprintf_02x (v : Z) : string :=
  String (hexDigit (v / 16)) (String (hexDigit (v mod 16)) "").

(** [fmt.Sprintf("%02x:%02x:%02x:%02x:%02x:%02x", ...)] *)
Definition Sprintf_mac (o0 o1 o2 o3 o4 o5 : Z) : string :=
  Sprintf_02x o0 +:+ ":" +:+ Sprintf_02x o1 +:+ ":" +:+ Sprintf_02x o2 +:+ ":" +:+
  Sprintf_02x o3 +:+ ":" +:+ Sprintf_02x o4 +:+ ":" +:+ Sprintf_02x o5.

(** The first octet: [(buf[0]|0x2)&0xfe]. *)
Definition firstOctet (b0 : Z) : Z := Z.land (Z.lor b0 2) 254.

Definition generateRandomMacAddress : M string :=
  let* (buf, err) := rand_Read 6 in
  match err with
  | Some _ => ret ""
  | None =>
      (* Set the local bit and make sure not MC address *)
      let macAddr :=
        Sprintf_mac (firstOctet (index buf 0)) (index buf 1) (index buf 2)
                    (index buf 3) (index buf 4) (index buf 5) in
      ret macAddr
  end.

Definition addLocalDeviceVhost (conf : NetConf) (args : CmdArgs) (data : OvsSavedData)
    : M (error * OvsSavedData) :=
  let* cid := slice_to args.(ContainerID) 12 in
  let s := [cid; args.(IfName)] in
  let sockRef := strings_Join s "-" in
  let sockDir := DefaultSocketDir in
  let* err := os_Stat sockDir in
  let* err :=
    match err with
    | Some _ =>
        if os_IsNotExist err then os_MkdirAll sockDir 448 (* 0700 *)
        else ret err
    | None => ret nil_error
    end in
  match err with
  | Some _ => ret (err, data)
  | None =>
      (* Validate and convert input data *)
      let clientMode := conf.(HostConf).(VhostConf).(Mode) =? "Mode" in
      let bridgeName :=
        if conf.(HostConf).(NetType) =? "bridge"
        then conf.(HostConf).(BridgeConf).(BridgeName) else "" in
      (* ovs-vsctl add-port *)
      let* (vhostName, err) := createVhostPort sockDir sockRef clientMode bridgeName in
      match err with
      | None =>
          let* (vhostPortMac, err') := getVhostPortMac vhostName in
          let data :=
            match err' with
            | None => set_VhostMac vhostPortMac data
            | Some _ => data
            end in
          let data := set_Vhostname vhostName data in
          let* mac := generateRandomMacAddress in
          let data := set_IfMac mac data in
          ret (err, data)
      | Some _ => ret (err, data)
      end
  end.

(** The [for ... range filesForContainerID] loop of [delLocalDeviceVhost]:
    returns the error that ended it early, if any, and [numDeletedFiles].
    The counter cannot overflow: it never exceeds the length of a slice. *)
Fixpoint removeMatchingFiles (dir : path) (fileBaseName : string)
    (files : list string) (numDeletedFiles : Z) : M (error * Z) :=
  match files with
  | [] => ret (nil_error, numDeletedFiles)
  | fileName :: rest =>
      let (matched, _) := GoRegexp.MatchString (fileBaseName +:+ ".*") fileName in
      if (matched : bool) then
        let file := filepath_Join dir fileName in
        let* err := os_Remove file in
        match err with
        | Some _ => ret (err, numDeletedFiles)
        | None => removeMatchingFiles dir fileBaseName rest (numDeletedFiles + 1)
        end
      else removeMatchingFiles dir fileBaseName rest numDeletedFiles
  end.

Definition delLocalDeviceVhost (conf : NetConf) (args : CmdArgs) (data : OvsSavedData)
    : M error :=
  (* Validate and convert input data *)
  let bridgeName :=
    if conf.(HostConf).(NetType) =? "bridge"
    then conf.(HostConf).(BridgeConf).(BridgeName) else "" in
  (* ovs-vsctl --if-exists del-port *)
  let* err := deleteVhostPort data.(Vhostname) bridgeName in
  match err with
  | None =>
      let dir := DefaultSocketDir in
      let* (folder, err) := os_Open dir in
      match err with
      | Some _ => ret err
      | None =>
          let* cid := slice_to args.(ContainerID) 12 in
          let fileBaseName := cid +:+ "-" +:+ args.(IfName) in
          let* (filesForContainerID, err) := Readdirnames folder 0 in
          match err with
          | Some _ => ret err
          | None =>
              (* Remove files with matching container ID and IF name *)
              let* (err, numDeletedFiles) :=
                removeMatchingFiles dir fileBaseName filesForContainerID 0 in
              match err with
              | Some _ => ret err
              | None =>
                  (* Remove folder for container ID if it's empty *)
                  if (numDeletedFiles =? Z.of_nat (length filesForContainerID))%Z
                  then
                    let* err := os_Remove dir in
                    match err with
                    | Some _ => ret err
                    | None => ret nil_error
                    end
                  else ret nil_error
              end
          end
      end
  | Some _ => ret nil_error
  end.

Definition addLocalNetworkBridge (conf : NetConf) (args : CmdArgs) (data : OvsSavedData)
    : M error :=
  let* found := findBridge conf.(HostConf).(BridgeConf).(BridgeName) in
  if negb found
  then createBridge conf.(HostConf).(BridgeConf).(BridgeName)
  else ret nil_error.

Definition delLocalNetworkBridge (conf : NetConf) (args : CmdArgs) (data : OvsSavedData)
    : M error :=
  let* containInterfaces :=
    doesBridgeContainInterfaces conf.(HostConf).(BridgeConf).(BridgeName) in
  if negb containInterfaces
  then deleteBridge conf.(HostConf).(BridgeConf).(BridgeName)
  else ret nil_error.

(** ** [cniovs.go]: API functions *)

Definition AddOnHost (conf : NetConf) (args : CmdArgs) (ipResult : Result)
    : M (error * NetConf) :=
  let data := zeroSavedData in
  let conf :=
    if negb (conf.(HostConf).(NetType) =? "bridge")
    then set_BridgeName defaultBridge (set_NetType "bridge" conf)
    else conf in
  (* If Network Type is Bridge, Create it first before creating Interface *)
  let* err :=
    if conf.(HostConf).(NetType) =? "bridge"
    then addLocalNetworkBridge conf args data
    else ret nil_error in
  match err with
  | Some _ => ret (err, conf)
  | None =>
      (* Create Local Interface *)
      let* (err, data) :=
        if conf.(HostConf).(IfType) =? "vhostuser"
        then addLocalDeviceVhost conf args data
        else ret (errors_New ("ERROR: Unknown HostConf.IfType:" +:+ conf.(HostConf).(IfType)),
                  data) in
      match err with
      | Some _ => ret (err, conf)
      | None =>
          (* Add Interface to Local Network: the inner [if] has an empty body *)
          let* _ :=
            if conf.(HostConf).(NetType) =? "interface"
            then (if negb (length ipResult.(IPs) =? 0)%nat then ret tt else ret tt)
            else ret tt in
          (* Save Config - Save Create Data for Delete *)
          let* err := SaveConfig conf args data in
          ret (err, conf)
      end
  end.

Definition DelFromHost (conf : NetConf) (args : CmdArgs) : M (error * NetConf) :=
  let data := zeroSavedData in
  (* Load Config - Retrieved squirreled away data needed for processing delete *)
  let* (err, data) := LoadConfig conf args data in
  match err with
  | Some _ => ret (err, conf)
  | None =>
      let conf :=
        if negb (conf.(HostConf).(NetType) =? "bridge")
        then set_BridgeName defaultBridge (set_NetType "bridge" conf)
        else conf in
      (* Delete Local Interface *)
      let* err :=
        if conf.(HostConf).(IfType) =? "vhostuser"
        then delLocalDeviceVhost conf args data
        else ret (errors_New ("ERROR: Unknown HostConf.Type:" +:+ conf.(HostConf).(IfType))) in
      match err with
      | Some _ => ret (err, conf)
      | None =>
          (* Delete Bridge if empty *)
          if conf.(HostConf).(NetType) =? "bridge"
          then
            let* err := delLocalNetworkBridge conf args data in
            ret (err, conf)
          else ret (err, conf)
      end
  end.

(** * Vocabulary of the statements *)

(** The request with its network type forced to "bridge" and its bridge
    name to the default bridge. *)
Definition coerceToDefaultBridge (conf : NetConf) : NetConf :=
  set_BridgeName defaultBridge (set_NetType "bridge" conf).

(** The request as [AddOnHost] (lines 71-74) and [DelFromHost] (lines
    146-149) leave it. *)
Definition normalized (conf : NetConf) : NetConf :=
  if negb (conf.(HostConf).(NetType) =? "bridge")
  then coerceToDefaultBridge conf else conf.

(** The creation step of [AddOnHost] (lines 89-93). *)
Definition createStep (conf : NetConf) (args : CmdArgs) : M (error * OvsSavedData) :=
  if conf.(HostConf).(IfType) =? "vhostuser"
  then addLocalDeviceVhost conf args zeroSavedData
  else ret (errors_New ("ERROR: Unknown HostConf.IfType:" +:+ conf.(HostConf).(IfType)),
            zeroSavedData).

(** [AddOnHost] on a request that is already normalized. *)
Definition AddOnHost_body (conf : NetConf) (args : CmdArgs) : M (error * NetConf) :=
  let* err := addLocalNetworkBridge conf args zeroSavedData in
  match err with
  | Some _ => ret (err, conf)
  | None =>
      let* (err, data) := createStep conf args in
      match err with
      | Some _ => ret (err, conf)
      | None => let* err := SaveConfig conf args data in ret (err, conf)
      end
  end.

(** The deletion step of [DelFromHost] (lines 158-162). *)
Definition deleteStep (conf : NetConf) (args : CmdArgs) (data : OvsSavedData) : M error :=
  if conf.(HostConf).(IfType) =? "vhostuser"
  then delLocalDeviceVhost conf args data
  else ret (errors_New ("ERROR: Unknown HostConf.Type:" +:+ conf.(HostConf).(IfType))).

(** [DelFromHost] after the record was loaded, on a normalized request. *)
Definition DelFromHost_body (conf : NetConf) (args : CmdArgs) (data : OvsSavedData)
    : M (error * NetConf) :=
  let* err := deleteStep conf args data in
  match err with
  | Some _ => ret (err, conf)
  | None => let* err := delLocalNetworkBridge conf args data in ret (err, conf)
  end.

(** Some port of the vswitch is attached to the bridge. *)
Definition hasInterfaces (bridgeName : string) (w : World) : Prop :=
  map_Exists (fun _ p => p.(port_bridge) = bridgeName) w.(ports).

(** What [deleteVhostPort] does to the ports of the vswitch. *)
Definition deletePortFrom (vhostName bridgeName : string) (ps : gmap string Port)
    : gmap string Port :=
  match ps !! vhostName with
  | Some p => if bool_decide (p.(port_bridge) = bridgeName) then delete vhostName ps else ps
  | None => ps
  end.

(** The attachment's reference string: the first 12 characters of the
    container ID, a "-", the interface name. *)
Definition fileBaseNameOf (args : CmdArgs) : string :=
  substring 0 12 args.(ContainerID) +:+ "-" +:+ args.(IfName).

(** The test [delLocalDeviceVhost] applies to each name of the listing:
    [match, _ := regexp.MatchString(fileBaseName+".*", fileName)]. *)
Definition matchesBase (fileBaseName fileName : string) : bool :=
  (GoRegexp.MatchString (fileBaseName +:+ ".*") fileName).1.

Definition matchesAttachment (args : CmdArgs) (fileName : string) : bool :=
  matchesBase (fileBaseNameOf args) fileName.

(** [fileName] starts with [p]. *)
Fixpoint hasPrefix (p fileName : string) : bool :=
  match p, fileName with
  | EmptyString, _ => true
  | String a p', String b s' => Ascii.eqb a b && hasPrefix p' s'
  | String _ _, EmptyString => false
  end.

(** [s] contains [sub]. *)
Fixpoint contains (sub s : string) : bool :=
  hasPrefix sub s ||
  match s with
  | String _ s' => contains sub s'
  | EmptyString => false
  end.

(** No character of the string is a metacharacter of the pattern syntax. *)
Fixpoint plain (s : string) : bool :=
  match s with
  | EmptyString => true
  | String c s' => negb (GoRegexp.isMeta c) && plain s'
  end.

(** The pattern that a string of ordinary characters stands for. *)
Fixpoint literal (s : string) : GoRegexp.regex :=
  match s with
  | EmptyString => []
  | String c s' =>
      {| GoRegexp.p_atom := GoRegexp.Lit c; GoRegexp.p_star := false |} :: literal s'
  end.

(** The pattern of ".*". *)
Definition anyString : GoRegexp.regex :=
  [ {| GoRegexp.p_atom := GoRegexp.AnyCharNotNL; GoRegexp.p_star := true |} ].

(** An action leaves a component of the host as it found it. *)
Definition preserves {X A : Type} (proj : World -> X) (c : M A) : Prop :=
  forall w, proj (c w).2 = proj w.

(** An action returns, whatever the host. *)
Definition never_panics {A : Type} (c : M A) : Prop :=
  forall w, exists a, (c w).1 = Returns a.

Definition hexValue (c : ascii) : option Z :=
  let n := Z.of_nat (nat_of_ascii c) in
  if ((48 <=? n) && (n <=? 57))%Z then Some (n - 48)%Z
  else if ((97 <=? n) && (n <=? 102))%Z then Some (n - 87)%Z
  else None.

(** The value of the first octet of a MAC address in text form. *)
Definition firstOctetOf (mac : string) : option Z :=
  match mac with
  | String h (String l _) =>
      match hexValue h, hexValue l with
      | Some hv, Some lv => Some (16 * hv + lv)%Z
      | _, _ => None
      end
  | _ => None
  end.

(** The error a call returned, forgetting the request it hands back. *)
Definition errorOf (o : outcome (error * NetConf)) : outcome error :=
  match o with
  | Returns (err, _) => Returns err
  | Panics msg => Panics msg
  end.

(** ** Example hosts and requests *)

Definition exampleArgs : CmdArgs :=
  {| ContainerID := "abc123def456789"; IfName := "eth0" |}.

Definition exampleConf (netType ifType bridgeName mode : string) : NetConf :=
  {| HostConf := {| NetType := netType; IfType := ifType;
                    BridgeConf := {| BridgeName := bridgeName |};
                    VhostConf := {| Mode := mode |} |} |}.

Definition noIPs : Result := {| IPs := [] |}.

(** A request for an interface type the plugin does not implement. *)
Definition dpdkvirtioConf : NetConf := exampleConf "interface" "dpdkvirtio" "" "client".

(** An Add-time request and a different Delete-time request for the same
    attachment, neither of network type "bridge". *)
Definition addTimeConf : NetConf := exampleConf "interface" "vhostuser" "" "server".

Definition delTimeConf : NetConf := exampleConf "" "vhostuser" "br7" "server".

(** A host with no bridge, no port, no socket directory and no record. *)
Definition emptyHost : World :=
  {| bridges := ∅; ports := ∅; sockDir := None; saved := ∅;
     vswitchMac := "00:00:00:00:00:01";
     entropy := ["001"; "002"; "003"; "004"; "005"; "006"]%byte;
     failing := [] |}.

Definition set_failing (cs : list Call) (w : World) : World :=
  {| bridges := w.(bridges); ports := w.(ports); sockDir := w.(sockDir);
     saved := w.(saved); vswitchMac := w.(vswitchMac);
     entropy := w.(entropy); failing := cs |}.

(** The host after a successful [AddOnHost] of the example attachment on
    bridge "br0". *)
Definition hostAfterAdd : World :=
  (AddOnHost (exampleConf "bridge" "vhostuser" "br0" "server") exampleArgs noIPs emptyHost).2.

(** The record that [AddOnHost] saved on that host. *)
Definition exampleSavedData : OvsSavedData :=
  {| Vhostname := "abc123def456-eth0";
     VhostMac := "00:00:00:00:00:01";
     IfMac := "02:02:03:04:05:06" |}.

(** The same host with the given files in the socket directory. *)
Definition hostWithFiles (files : gset string) : World :=
  set_sockDir (Some files) hostAfterAdd.

(** The same host when the vswitch refuses to delete ports. *)
Definition hostDelPortFails : World := set_failing [op_deleteVhostPort] hostAfterAdd.

(** The same, the port of the attachment being gone already. *)
Definition hostPortGoneDelPortFails : World :=
  set_failing [op_deleteVhostPort] (set_ports (fun _ => ∅) hostAfterAdd).

(** The empty host when the vswitch fails to report the MAC of a port. *)
Definition hostMacQueryFails : World := set_failing [op_getVhostPortMac] emptyHost.

(** Requests for a vhost-user port on "br0" in the two socket modes. *)
Definition clientConf : NetConf := exampleConf "bridge" "vhostuser" "br0" "client".

Definition serverConf : NetConf := exampleConf "bridge" "vhostuser" "br0" "server".

(** The socket directory of the cleanup example, with one more file whose
    name contains the reference string without starting with it. *)
Definition exampleFiles : gset string :=
  {[ "abc123def456-eth0.sock"; "abc123def456-eth0.lock"; "999999999999-eth1.sock" ]}.

Definition exampleFilesAndOld : gset string :=
  {[ "old-abc123def456-eth0.sock" ]} ∪ exampleFiles.

(** The claim about unsupported interface types in its strongest reading:
    the call fails with the unsupported-type error and the bridges, the
    ports and the saved records are those of before. *)
Definition unsupported_type_leaves_host_unchanged
    (conf : NetConf) (args : CmdArgs) (ipResult : Result) (w : World) : Prop :=
  conf.(HostConf).(IfType) <> "vhostuser" ->
  exists conf' w',
    AddOnHost conf args ipResult w =
      (Returns (errors_New ("ERROR: Unknown HostConf.IfType:" +:+ conf.(HostConf).(IfType)),
                conf'), w') /\
    w'.(bridges) = w.(bridges) /\
    w'.(ports) = w.(ports) /\
    w'.(saved) = w.(saved).

(** ** Vocabulary of the properties of the whole calls *)

(** The socket directory is as it was, or was missing and is now empty. *)
Definition sockDirKeptOrCreated (w w' : World) : Prop :=
  w'.(sockDir) = w.(sockDir) \/ (w.(sockDir) = None /\ w'.(sockDir) = Some ∅).

(** Every run of the action takes the host to one related to it by [R]. *)
Definition relates {A : Type} (R : World -> World -> Prop) (c : M A) : Prop :=
  forall w, R w (c w).2.


(** The MAC address [generateRandomMacAddress] makes of the random bytes at
    hand, and the bytes it leaves. *)
Definition macOfEntropy (e : list byte) : string :=
  if (6 <=? length e)%nat
  then Sprintf_mac (firstOctet (index (take 6 e) 0)) (index (take 6 e) 1)
         (index (take 6 e) 2) (index (take 6 e) 3) (index (take 6 e) 4)
         (index (take 6 e) 5)
  else "".

Definition restOfEntropy (e : list byte) : list byte :=
  if (6 <=? length e)%nat then drop 6 e else e.

(** The calls [AddOnHost] makes to the vswitch, the filesystem and the store. *)
Definition addCalls : list Call :=
  [op_createBridge; op_Stat; op_MkdirAll; op_createVhostPort; op_getVhostPortMac;
   op_SaveConfig].

(** The port [AddOnHost] creates for a request on a given vswitch. *)
Definition portOf (conf : NetConf) (args : CmdArgs) (w : World) : Port :=
  {| port_bridge := (normalized conf).(HostConf).(BridgeConf).(BridgeName);
     port_socketDir := DefaultSocketDir;
     port_socketRef := fileBaseNameOf args;
     port_clientMode := conf.(HostConf).(VhostConf).(Mode) =? "Mode";
     port_mac := w.(vswitchMac) |}.

(** The record [AddOnHost] saves. *)
Definition recordOf (args : CmdArgs) (w : World) : OvsSavedData :=
  {| Vhostname := fileBaseNameOf args;
     VhostMac := w.(vswitchMac);
     IfMac := macOfEntropy w.(entropy) |}.

(** The host when [AddOnHost] comes to save the record: the bridge and the
    socket directory exist, the port is made, the random bytes are used. *)
Definition hostBeforeSave (conf : NetConf) (args : CmdArgs) (w : World) : World :=
  {| bridges := {[ (normalized conf).(HostConf).(BridgeConf).(BridgeName) ]} ∪ w.(bridges);
     ports := <[ fileBaseNameOf args := portOf conf args w ]> w.(ports);
     sockDir := Some (default ∅ w.(sockDir));
     saved := w.(saved);
     vswitchMac := w.(vswitchMac);
     entropy := restOfEntropy w.(entropy);
     failing := w.(failing) |}.

(** The host a successful [AddOnHost] leaves. *)
Definition hostAfterAddOnHost (conf : NetConf) (args : CmdArgs) (w : World) : World :=
  set_saved (insert (identity args) (recordOf args w)) (hostBeforeSave conf args w).

(** A MAC address in text form, [hh:hh:hh:hh:hh:hh], read back into its
    six octets. *)
Definition parseOctet (h l : ascii) : option Z :=
  match hexValue h, hexValue l with
  | Some hv, Some lv => Some (16 * hv + lv)%Z
  | _, _ => None
  end.

Fixpoint parseOctets (n : nat) (s : string) : option (list Z) :=
  match s with
  | String h (String l rest) =>
      match parseOctet h l, rest, n with
      | Some v, EmptyString, O => Some [v]
      | Some v, String ":" rest', S n' =>
          match parseOctets n' rest' with
          | Some vs => Some (v :: vs)
          | None => None
          end
      | _, _, _ => None
      end
  | _ => None
  end.

Definition parseMac (mac : string) : option (list Z) := parseOctets 5 mac.


Definition hostStoreFails : World := set_failing [op_SaveConfig] emptyHost.

Definition hostCreateBridgeFails : World := set_failing [op_createBridge] emptyHost.

Definition hostCreatePortFails : World := set_failing [op_createVhostPort] emptyHost.

Definition hostWithoutSocketDir : World := set_sockDir None hostAfterAdd.

Definition hostRemoveFails : World :=
  set_failing [op_Remove (InSocketDir "abc123def456-eth0.sock")] (hostWithFiles exampleFiles).

Definition otherArgs : CmdArgs :=
  {| ContainerID := "999999999999aaa"; IfName := "eth1" |}.

(** The host after the example attachment and a second one on "br0". *)
Definition hostTwoAttachments : World :=
  (AddOnHost serverConf otherArgs noIPs hostAfterAdd).2.

Definition otherPort : Port :=
  {| port_bridge := "br0";
     port_socketDir := DefaultSocketDir;
     port_socketRef := "999999999999-eth1";
     port_clientMode := false;
     port_mac := "00:00:00:00:00:01" |}.

(** * Properties *)

(** ** Reasoning about actions *)

Section Frame.
Context {X : Type} (proj : World -> X).

Lemma preserves_ret {A} (a : A) : preserves proj (ret a).
Proof. intros w. reflexivity. Qed.

Lemma preserves_panic {A} msg : preserves proj (@panic A msg).
Proof. intros w. reflexivity. Qed.

Lemma preserves_gets {A} (f : World -> A) : preserves proj (gets f).
Proof. intros w. reflexivity. Qed.

Lemma preserves_fails c : preserves proj (fails c).
Proof. intros w. reflexivity. Qed.

Lemma preserves_modify (f : World -> World) :
  (forall w, proj (f w) = proj w) -> preserves proj (modify f).
Proof. intros Hf w. apply Hf. Qed.

Lemma preserves_bind {A B} (c : M A) (k : A -> M B) :
  preserves proj c -> (forall a, preserves proj (k a)) -> preserves proj (bind c k).
Proof.
  intros Hc Hk w. unfold bind. specialize (Hc w).
  destruct (c w) as [[a | msg] w1]; simpl in *.
  - rewrite Hk. exact Hc.
  - exact Hc.
Qed.

Lemma bind_snd {A B} (c : M A) (k : A -> M B) (w : World) :
  (forall a, preserves proj (k a)) -> proj (bind c k w).2 = proj (c w).2.
Proof.
  intros Hk. unfold bind.
  destruct (c w) as [[a | msg] w1]; simpl; [apply Hk | reflexivity].
Qed.
End Frame.

Ltac frame_step :=
  first
    [ apply preserves_ret
    | apply preserves_panic
    | apply preserves_gets
    | apply preserves_fails
    | apply preserves_modify; intros; reflexivity
    | apply preserves_bind; [| intros ?]
    | match goal with
      | |- preserves _ (if ?b then _ else _) => destruct b
      | |- preserves _ (match ?x with _ => _ end) => destruct x
      | |- preserves _ (let (_, _) := ?x in _) => destruct x
      end ].

Ltac frame := repeat frame_step.

Lemma never_panics_ret {A} (a : A) : never_panics (ret a).
Proof. intros w. exists a. reflexivity. Qed.

Lemma never_panics_gets {A} (f : World -> A) : never_panics (gets f).
Proof. intros w. eexists. reflexivity. Qed.

Lemma never_panics_fails c : never_panics (fails c).
Proof. intros w. eexists. reflexivity. Qed.

Lemma never_panics_modify f : never_panics (modify f).
Proof. intros w. eexists. reflexivity. Qed.

Lemma never_panics_bind {A B} (c : M A) (k : A -> M B) :
  never_panics c -> (forall a, never_panics (k a)) -> never_panics (bind c k).
Proof.
  intros Hc Hk w. unfold bind. destruct (Hc w) as [a Ha].
  destruct (c w) as [o w1]. simpl in Ha. subst o. apply Hk.
Qed.

Lemma never_panics_slice_to s n :
  (n <= String.length s)%nat -> never_panics (slice_to s n).
Proof.
  intros Hn w. unfold slice_to.
  destruct (Nat.leb_spec n (String.length s)); [eexists; reflexivity | lia].
Qed.

Ltac returns_step :=
  first
    [ apply never_panics_ret
    | apply never_panics_gets
    | apply never_panics_fails
    | apply never_panics_modify
    | apply never_panics_slice_to; assumption
    | apply never_panics_bind; [| intros ?]
    | match goal with
      | |- never_panics (if ?b then _ else _) => destruct b
      | |- never_panics (match ?x with _ => _ end) => destruct x
      | |- never_panics (let (_, _) := ?x in _) => destruct x
      end ].

Lemma bind_Returns {A B} (c : M A) (k : A -> M B) w a w1 :
  c w = (Returns a, w1) -> bind c k w = k a w1.
Proof. intros H. unfold bind. rewrite H. reflexivity. Qed.

(** ** The collaborators, call by call *)

Lemma createBridge_eq br w :
  createBridge br w =
    if bool_decide (op_createBridge ∈ w.(failing))
    then (Returns (Some (VswitchOperationFailed op_createBridge)), w)
    else (Returns nil_error, set_bridges (fun bs => {[ br ]} ∪ bs) w).
Proof.
  unfold createBridge, bind, fails, gets, modify, ret. simpl.
  destruct (bool_decide (op_createBridge ∈ w.(failing))); reflexivity.
Qed.

Lemma deleteBridge_eq br w :
  deleteBridge br w =
    if bool_decide (op_deleteBridge ∈ w.(failing))
    then (Returns (Some (VswitchOperationFailed op_deleteBridge)), w)
    else (Returns nil_error, set_bridges (fun bs => bs ∖ {[ br ]}) w).
Proof.
  unfold deleteBridge, bind, fails, gets, modify, ret. simpl.
  destruct (bool_decide (op_deleteBridge ∈ w.(failing))); reflexivity.
Qed.

Lemma deleteVhostPort_ok vhostName bridgeName w :
  op_deleteVhostPort ∉ w.(failing) ->
  deleteVhostPort vhostName bridgeName w =
    (Returns nil_error, set_ports (deletePortFrom vhostName bridgeName) w).
Proof.
  intros Hnf. unfold deleteVhostPort, bind, fails, gets, modify, ret. simpl.
  rewrite bool_decide_eq_false_2 by exact Hnf. reflexivity.
Qed.

Lemma deleteVhostPort_failing vhostName bridgeName w :
  op_deleteVhostPort ∈ w.(failing) ->
  deleteVhostPort vhostName bridgeName w =
    (Returns (Some (VswitchOperationFailed op_deleteVhostPort)), w).
Proof.
  intros Hf. unfold deleteVhostPort, bind, fails, gets, modify, ret. simpl.
  rewrite bool_decide_eq_true_2 by exact Hf. reflexivity.
Qed.

Lemma createVhostPort_eq sockDir sockRef clientMode bridgeName w :
  createVhostPort sockDir sockRef clientMode bridgeName w =
    if bool_decide (op_createVhostPort ∈ w.(failing))
    then (Returns ("", Some (VswitchOperationFailed op_createVhostPort)), w)
    else (Returns (sockRef, nil_error),
          set_ports (insert sockRef
            {| port_bridge := bridgeName; port_socketDir := sockDir;
               port_socketRef := sockRef; port_clientMode := clientMode;
               port_mac := w.(vswitchMac) |}) w).
Proof.
  unfold createVhostPort, bind, fails, gets, modify, ret. simpl.
  destruct (bool_decide (op_createVhostPort ∈ w.(failing))); reflexivity.
Qed.

Lemma getVhostPortMac_failing vhostName w :
  op_getVhostPortMac ∈ w.(failing) ->
  getVhostPortMac vhostName w
  = (Returns ("", Some (VswitchOperationFailed op_getVhostPortMac)), w).
Proof.
  intros Hf. unfold getVhostPortMac, bind, fails, gets, ret. simpl.
  rewrite bool_decide_eq_true_2 by exact Hf. reflexivity.
Qed.

Lemma LoadConfig_eq conf args data w :
  LoadConfig conf args data w =
    match w.(saved) !! identity args with
    | None => (Returns (Some ConfigNotFound, data), w)
    | Some d => (Returns (nil_error, d), set_saved (delete (identity args)) w)
    end.
Proof.
  unfold LoadConfig, bind, gets, modify, ret. simpl.
  destruct (w.(saved) !! identity args); reflexivity.
Qed.

Lemma SaveConfig_eq conf args data w :
  SaveConfig conf args data w =
    if bool_decide (op_SaveConfig ∈ w.(failing))
    then (Returns (Some StoreWriteFailed), w)
    else (Returns nil_error, set_saved (insert (identity args) data) w).
Proof.
  unfold SaveConfig, bind, fails, gets, modify, ret. simpl.
  destruct (bool_decide (op_SaveConfig ∈ w.(failing))); reflexivity.
Qed.

Lemma os_Open_dir_ok files w :
  op_Open ∉ w.(failing) -> w.(sockDir) = Some files ->
  os_Open DefaultSocketDir w = (Returns (DefaultSocketDir, nil_error), w).
Proof.
  intros Hnf Hd. unfold os_Open, bind, fails, gets, ret. simpl.
  rewrite bool_decide_eq_false_2 by exact Hnf. rewrite Hd. reflexivity.
Qed.

Lemma slice_to_ok s n w :
  (n <= String.length s)%nat -> slice_to s n w = (Returns (substring 0 n s), w).
Proof.
  intros Hn. unfold slice_to.
  destruct (Nat.leb_spec n (String.length s)); [reflexivity | lia].
Qed.

Lemma Readdirnames_ok files n w :
  op_Readdirnames ∉ w.(failing) -> w.(sockDir) = Some files ->
  Readdirnames DefaultSocketDir n w = (Returns (elements files, nil_error), w).
Proof.
  intros Hnf Hd. unfold Readdirnames, bind, fails, gets, ret. simpl.
  rewrite bool_decide_eq_false_2 by exact Hnf. rewrite Hd. reflexivity.
Qed.

Lemma os_Remove_file_ok f files w :
  op_Remove (InSocketDir f) ∉ w.(failing) ->
  w.(sockDir) = Some files ->
  f ∈ files ->
  os_Remove (InSocketDir f) w = (Returns nil_error, set_sockDir (Some (files ∖ {[ f ]})) w).
Proof.
  intros Hnf Hd Hin. unfold os_Remove, bind, fails, gets, modify, ret. simpl.
  rewrite bool_decide_eq_false_2 by exact Hnf. rewrite Hd.
  rewrite bool_decide_eq_true_2 by exact Hin. reflexivity.
Qed.

Lemma os_Remove_dir_ok w :
  op_Remove DefaultSocketDir ∉ w.(failing) -> w.(sockDir) = Some ∅ ->
  os_Remove DefaultSocketDir w = (Returns nil_error, set_sockDir None w).
Proof.
  intros Hnf Hd. unfold os_Remove, bind, fails, gets, modify, ret. simpl.
  rewrite bool_decide_eq_false_2 by exact Hnf. rewrite Hd. reflexivity.
Qed.

(** ** The normalization of the request *)

Lemma NetType_normalized conf : (normalized conf).(HostConf).(NetType) = "bridge".
Proof.
  unfold normalized. destruct (conf.(HostConf).(NetType) =? "bridge") eqn:E; simpl.
  - apply String.eqb_eq in E. exact E.
  - reflexivity.
Qed.

Lemma IfType_normalized conf :
  (normalized conf).(HostConf).(IfType) = conf.(HostConf).(IfType).
Proof. unfold normalized. destruct (_ =? _); reflexivity. Qed.

Lemma normalized_coerce conf :
  conf.(HostConf).(NetType) <> "bridge" -> normalized conf = coerceToDefaultBridge conf.
Proof.
  intros Hne. unfold normalized. apply String.eqb_neq in Hne. rewrite Hne. reflexivity.
Qed.

Lemma normalized_idem conf : normalized (normalized conf) = normalized conf.
Proof. unfold normalized at 1. rewrite NetType_normalized. reflexivity. Qed.

Lemma AddOnHost_unfold conf args ip :
  AddOnHost conf args ip = AddOnHost_body (normalized conf) args.
Proof.
  unfold AddOnHost, AddOnHost_body, createStep.
  change (if negb (conf.(HostConf).(NetType) =? "bridge")
          then set_BridgeName defaultBridge (set_NetType "bridge" conf) else conf)
    with (normalized conf).
  rewrite (NetType_normalized conf). reflexivity.
Qed.

Lemma DelFromHost_unfold conf args :
  DelFromHost conf args =
    let* (err, data) := LoadConfig conf args zeroSavedData in
    match err with
    | Some _ => ret (err, conf)
    | None => DelFromHost_body (normalized conf) args data
    end.
Proof.
  unfold DelFromHost, DelFromHost_body, deleteStep.
  change (if negb (conf.(HostConf).(NetType) =? "bridge")
          then set_BridgeName defaultBridge (set_NetType "bridge" conf) else conf)
    with (normalized conf).
  rewrite (NetType_normalized conf). reflexivity.
Qed.

Lemma DelFromHost_loaded conf args d w :
  w.(saved) !! identity args = Some d ->
  DelFromHost conf args w =
    DelFromHost_body (normalized conf) args d (set_saved (delete (identity args)) w).
Proof.
  intros Hd. rewrite DelFromHost_unfold. unfold bind at 1.
  rewrite LoadConfig_eq, Hd. reflexivity.
Qed.

(** ** The bridge helpers *)

Lemma addLocalNetworkBridge_eq conf args data w :
  addLocalNetworkBridge conf args data w =
    let br := conf.(HostConf).(BridgeConf).(BridgeName) in
    if bool_decide (br ∈ w.(bridges)) then (Returns nil_error, w)
    else if bool_decide (op_createBridge ∈ w.(failing))
         then (Returns (Some (VswitchOperationFailed op_createBridge)), w)
         else (Returns nil_error, set_bridges (fun bs => {[ br ]} ∪ bs) w).
Proof.
  unfold addLocalNetworkBridge, findBridge, createBridge, bind, gets, fails, modify, ret.
  simpl.
  destruct (bool_decide (_ ∈ w.(bridges))); simpl; [reflexivity |].
  destruct (bool_decide (op_createBridge ∈ w.(failing))); reflexivity.
Qed.

Lemma delLocalNetworkBridge_eq conf args data w :
  delLocalNetworkBridge conf args data w =
    let br := conf.(HostConf).(BridgeConf).(BridgeName) in
    if bool_decide (hasInterfaces br w) then (Returns nil_error, w)
    else if bool_decide (op_deleteBridge ∈ w.(failing))
         then (Returns (Some (VswitchOperationFailed op_deleteBridge)), w)
         else (Returns nil_error, set_bridges (fun bs => bs ∖ {[ br ]}) w).
Proof.
  unfold delLocalNetworkBridge, doesBridgeContainInterfaces, deleteBridge, hasInterfaces,
    bind, gets, fails, modify, ret.
  simpl.
  destruct (bool_decide (map_Exists _ _)); simpl; [reflexivity |].
  destruct (bool_decide (op_deleteBridge ∈ w.(failing))); reflexivity.
Qed.

(** ** What each function leaves alone *)

Lemma removeMatchingFiles_frame {X} (proj : World -> X) dir base files n :
  (forall d w, proj (set_sockDir d w) = proj w) ->
  preserves proj (removeMatchingFiles dir base files n).
Proof.
  intros Hp. revert n. induction files as [| f rest IH]; intros n; simpl.
  - frame.
  - destruct (GoRegexp.MatchString _ _) as [m e]. destruct m; [| apply IH].
    apply preserves_bind.
    + unfold os_Remove.
      repeat first [ apply preserves_modify; intros; apply Hp | frame_step ].
    + intros [e' |]; [frame | apply IH].
Qed.

Ltac frame_del :=
  unfold delLocalDeviceVhost, deleteVhostPort, os_Open, slice_to, Readdirnames, os_Remove;
  repeat first [ apply removeMatchingFiles_frame; intros; reflexivity | frame_step ].

Ltac frame_add :=
  unfold addLocalDeviceVhost, slice_to, os_Stat, os_MkdirAll, createVhostPort,
    getVhostPortMac, generateRandomMacAddress, rand_Read;
  frame.

Lemma addLocalNetworkBridge_ports conf args data :
  preserves ports (addLocalNetworkBridge conf args data).
Proof. unfold addLocalNetworkBridge, findBridge, createBridge. frame. Qed.

Lemma addLocalNetworkBridge_saved conf args data :
  preserves saved (addLocalNetworkBridge conf args data).
Proof. unfold addLocalNetworkBridge, findBridge, createBridge. frame. Qed.

Lemma addLocalDeviceVhost_bridges conf args data :
  preserves bridges (addLocalDeviceVhost conf args data).
Proof. frame_add. Qed.

Lemma addLocalDeviceVhost_saved conf args data :
  preserves saved (addLocalDeviceVhost conf args data).
Proof. frame_add. Qed.

Lemma createStep_bridges conf args : preserves bridges (createStep conf args).
Proof. unfold createStep. destruct (_ =? _); [apply addLocalDeviceVhost_bridges | frame]. Qed.

Lemma createStep_saved conf args : preserves saved (createStep conf args).
Proof. unfold createStep. destruct (_ =? _); [apply addLocalDeviceVhost_saved | frame]. Qed.

Lemma SaveConfig_bridges conf args data : preserves bridges (SaveConfig conf args data).
Proof. unfold SaveConfig. frame. Qed.

Lemma delLocalDeviceVhost_bridges conf args data :
  preserves bridges (delLocalDeviceVhost conf args data).
Proof. frame_del. Qed.

Lemma delLocalDeviceVhost_saved conf args data :
  preserves saved (delLocalDeviceVhost conf args data).
Proof. frame_del. Qed.

Lemma deleteStep_bridges conf args data : preserves bridges (deleteStep conf args data).
Proof. unfold deleteStep. destruct (_ =? _); [apply delLocalDeviceVhost_bridges | frame]. Qed.

Lemma deleteStep_saved conf args data : preserves saved (deleteStep conf args data).
Proof. unfold deleteStep. destruct (_ =? _); [apply delLocalDeviceVhost_saved | frame]. Qed.

Lemma delLocalNetworkBridge_saved conf args data :
  preserves saved (delLocalNetworkBridge conf args data).
Proof. unfold delLocalNetworkBridge, doesBridgeContainInterfaces, deleteBridge. frame. Qed.

Lemma delLocalNetworkBridge_sockDir conf args data :
  preserves sockDir (delLocalNetworkBridge conf args data).
Proof. unfold delLocalNetworkBridge, doesBridgeContainInterfaces, deleteBridge. frame. Qed.

(** ** Which functions always return *)

Lemma never_panics_removeMatchingFiles dir base files n :
  never_panics (removeMatchingFiles dir base files n).
Proof.
  revert n. induction files as [| f rest IH]; intros n; simpl.
  - returns_step.
  - destruct (GoRegexp.MatchString _ _) as [m e]. destruct m; [| apply IH].
    apply never_panics_bind; [unfold os_Remove; repeat returns_step |].
    intros [e' |]; [returns_step | apply IH].
Qed.

Lemma never_panics_addLocalDeviceVhost conf args data :
  (12 <= String.length args.(ContainerID))%nat ->
  never_panics (addLocalDeviceVhost conf args data).
Proof.
  intros Hlen.
  unfold addLocalDeviceVhost, os_Stat, os_MkdirAll, createVhostPort, getVhostPortMac,
    generateRandomMacAddress, rand_Read.
  repeat returns_step.
Qed.

Lemma never_panics_delLocalDeviceVhost conf args data :
  (12 <= String.length args.(ContainerID))%nat ->
  never_panics (delLocalDeviceVhost conf args data).
Proof.
  intros Hlen.
  unfold delLocalDeviceVhost, deleteVhostPort, os_Open, Readdirnames, os_Remove.
  repeat first [ apply never_panics_removeMatchingFiles | returns_step ].
Qed.

Lemma never_panics_addLocalNetworkBridge conf args data :
  never_panics (addLocalNetworkBridge conf args data).
Proof. unfold addLocalNetworkBridge, findBridge, createBridge. repeat returns_step. Qed.

Lemma never_panics_delLocalNetworkBridge conf args data :
  never_panics (delLocalNetworkBridge conf args data).
Proof.
  unfold delLocalNetworkBridge, doesBridgeContainInterfaces, deleteBridge.
  repeat returns_step.
Qed.

Lemma never_panics_SaveConfig conf args data : never_panics (SaveConfig conf args data).
Proof. unfold SaveConfig. repeat returns_step. Qed.

Lemma AddOnHost_body_returns conf args :
  (12 <= String.length args.(ContainerID))%nat ->
  forall w, exists e w', AddOnHost_body conf args w = (Returns (e, conf), w').
Proof.
  intros Hlen w. unfold AddOnHost_body, bind at 1.
  destruct (never_panics_addLocalNetworkBridge conf args zeroSavedData w) as [e1 H1].
  destruct (addLocalNetworkBridge conf args zeroSavedData w) as [o1 w1].
  simpl in H1. subst o1.
  destruct e1 as [e1 |]; [do 2 eexists; reflexivity |].
  unfold bind at 1.
  assert (Hst : never_panics (createStep conf args)).
  { unfold createStep. destruct (_ =? _);
      [apply never_panics_addLocalDeviceVhost; exact Hlen | returns_step]. }
  destruct (Hst w1) as [[e2 d2] H2].
  destruct (createStep conf args w1) as [o2 w2]. simpl in H2. subst o2.
  destruct e2 as [e2 |]; [do 2 eexists; reflexivity |].
  unfold bind.
  destruct (never_panics_SaveConfig conf args d2 w2) as [e3 H3].
  destruct (SaveConfig conf args d2 w2) as [o3 w3]. simpl in H3. subst o3.
  do 2 eexists; reflexivity.
Qed.

Lemma DelFromHost_body_returns conf args data :
  (12 <= String.length args.(ContainerID))%nat ->
  forall w, exists e w', DelFromHost_body conf args data w = (Returns (e, conf), w').
Proof.
  intros Hlen w. unfold DelFromHost_body. unfold bind at 1.
  assert (Hst : never_panics (deleteStep conf args data)).
  { unfold deleteStep. destruct (_ =? _);
      [apply never_panics_delLocalDeviceVhost; exact Hlen | returns_step]. }
  destruct (Hst w) as [e1 H1].
  destruct (deleteStep conf args data w) as [o1 w1]. simpl in H1. subst o1.
  destruct e1 as [e1 |]; [do 2 eexists; reflexivity |].
  unfold bind.
  destruct (never_panics_delLocalNetworkBridge conf args data w1) as [e2 H2].
  destruct (delLocalNetworkBridge conf args data w1) as [o2 w2]. simpl in H2. subst o2.
  do 2 eexists; reflexivity.
Qed.

(** ** The synthesized MAC address *)

Lemma firstOctet_bits (b : byte) :
  Z.testbit (firstOctet (byte_to_Z b)) 1 = true /\
  Z.testbit (firstOctet (byte_to_Z b)) 0 = false /\
  Z.land (firstOctet (byte_to_Z b)) 2 = 2%Z /\
  Z.land (firstOctet (byte_to_Z b)) 1 = 0%Z.
Proof. destruct b; vm_compute; intuition congruence. Qed.

Lemma firstOctetOf_Sprintf_mac (b : byte) (o1 o2 o3 o4 o5 : Z) :
  firstOctetOf (Sprintf_mac (firstOctet (byte_to_Z b)) o1 o2 o3 o4 o5)
  = Some (firstOctet (byte_to_Z b)).
Proof. destruct b; reflexivity. Qed.

(** C9: whatever six bytes the random source delivers, the address
    [generateRandomMacAddress] returns is the six formatted octets whose
    first octet is [(buf[0]|0x2)&0xfe]; read back from the text, that octet
    has the locally-administered bit (0x02) set and the multicast bit
    (0x01) clear. *)
Theorem generateRandomMacAddress_local_unicast :
  forall (b0 b1 b2 b3 b4 b5 : byte) (rest : list byte) (w : World),
    exists (mac : string) (octet : Z),
      generateRandomMacAddress (set_entropy (b0 :: b1 :: b2 :: b3 :: b4 :: b5 :: rest) w)
        = (Returns mac, set_entropy rest w) /\
      mac = Sprintf_mac octet (byte_to_Z b1) (byte_to_Z b2) (byte_to_Z b3)
                        (byte_to_Z b4) (byte_to_Z b5) /\
      firstOctetOf mac = Some octet /\
      Z.land octet 2 = 2%Z /\
      Z.land octet 1 = 0%Z /\
      Z.testbit octet 1 = true /\
      Z.testbit octet 0 = false.
Proof.
  intros b0 b1 b2 b3 b4 b5 rest w.
  exists (Sprintf_mac (firstOctet (byte_to_Z b0)) (byte_to_Z b1) (byte_to_Z b2)
            (byte_to_Z b3) (byte_to_Z b4) (byte_to_Z b5)).
  exists (firstOctet (byte_to_Z b0)).
  destruct (firstOctet_bits b0) as (H1 & H0 & Hl & Hm).
  split; [reflexivity |].
  split; [reflexivity |].
  split; [apply firstOctetOf_Sprintf_mac |].
  repeat split; assumption.
Qed.

(** ** Default-bridge coercion *)

Lemma AddOnHost_body_conf conf args w e c w' :
  AddOnHost_body conf args w = (Returns (e, c), w') -> c = conf.
Proof.
  unfold AddOnHost_body, bind, ret.
  repeat match goal with
         | |- context [match ?x with _ => _ end] => destruct x
         | |- context [let (_, _) := ?x in _] => destruct x
         end; congruence.
Qed.

Lemma DelFromHost_body_conf conf args d w e c w' :
  DelFromHost_body conf args d w = (Returns (e, c), w') -> c = conf.
Proof.
  unfold DelFromHost_body, bind, ret.
  repeat match goal with
         | |- context [match ?x with _ => _ end] => destruct x
         | |- context [let (_, _) := ?x in _] => destruct x
         end; congruence.
Qed.

(** C2: for a request [confA] given to [AddOnHost] and a request [confD]
    given to [DelFromHost], neither of network type "bridge" (the empty
    type included), both calls work on the request coerced to network type
    "bridge" and bridge name "br0": each call has the effect and the error
    of the call on the coerced request, hands the coerced request back
    (Delete once it has loaded the record), and the two bridge names are
    the same "br0" however the two requests differ. *)
Theorem default_bridge_coercion_on_add_and_delete :
  forall (confA confD : NetConf) (args : CmdArgs) (ip : Result) (wA wD : World),
    confA.(HostConf).(NetType) <> "bridge" ->
    confD.(HostConf).(NetType) <> "bridge" ->
    let cA := coerceToDefaultBridge confA in
    let cD := coerceToDefaultBridge confD in
    (cA.(HostConf).(NetType) = "bridge" /\ cD.(HostConf).(NetType) = "bridge") /\
    (cA.(HostConf).(BridgeConf).(BridgeName) = "br0" /\
     cD.(HostConf).(BridgeConf).(BridgeName) = "br0") /\
    AddOnHost confA args ip wA = AddOnHost cA args ip wA /\
    (forall e c w', AddOnHost confA args ip wA = (Returns (e, c), w') -> c = cA) /\
    ((12 <= String.length args.(ContainerID))%nat ->
     exists e w', AddOnHost confA args ip wA = (Returns (e, cA), w')) /\
    ((DelFromHost confD args wD).2 = (DelFromHost cD args wD).2 /\
     errorOf (DelFromHost confD args wD).1 = errorOf (DelFromHost cD args wD).1) /\
    (forall d, wD.(saved) !! identity args = Some d ->
       DelFromHost confD args wD = DelFromHost cD args wD /\
       (forall e c w', DelFromHost confD args wD = (Returns (e, c), w') -> c = cD) /\
       ((12 <= String.length args.(ContainerID))%nat ->
        exists e w', DelFromHost confD args wD = (Returns (e, cD), w'))).
Proof.
  intros confA confD args ip wA wD HA HD cA cD.
  pose proof (normalized_coerce confA HA) as HnA. fold cA in HnA.
  pose proof (normalized_coerce confD HD) as HnD. fold cD in HnD.
  assert (HcA : normalized cA = cA) by (rewrite <- HnA; apply normalized_idem).
  assert (HcD : normalized cD = cD) by (rewrite <- HnD; apply normalized_idem).
  assert (Hload : forall d, wD.(saved) !! identity args = Some d ->
            DelFromHost confD args wD = DelFromHost cD args wD).
  { intros d Hd. rewrite !(DelFromHost_loaded _ _ d _ Hd).
    rewrite HnD, HcD. reflexivity. }
  split; [split; reflexivity |]. split; [split; reflexivity |].
  split; [rewrite !AddOnHost_unfold, HnA, HcA; reflexivity |].
  split.
  { intros e c w' H. rewrite AddOnHost_unfold, HnA in H.
    exact (AddOnHost_body_conf _ _ _ _ _ _ H). }
  split.
  { intros Hlen. rewrite AddOnHost_unfold, HnA. apply AddOnHost_body_returns. exact Hlen. }
  split.
  { destruct (wD.(saved) !! identity args) as [d |] eqn:Hd.
    - rewrite (Hload d eq_refl). split; reflexivity.
    - rewrite !DelFromHost_unfold. unfold bind. rewrite !LoadConfig_eq, Hd.
      split; reflexivity. }
  intros d Hd. split; [exact (Hload d Hd) |]. split.
  - intros e c w' H. rewrite (DelFromHost_loaded _ _ d _ Hd), HnD in H.
    exact (DelFromHost_body_conf _ _ _ _ _ _ _ H).
  - intros Hlen. rewrite (DelFromHost_loaded _ _ d _ Hd), HnD.
    apply DelFromHost_body_returns. exact Hlen.
Qed.

Lemma default_bridge_coercion_on_add_and_delete_witness :
  addTimeConf.(HostConf).(NetType) <> "bridge" /\
  delTimeConf.(HostConf).(NetType) <> "bridge" /\
  ((coerceToDefaultBridge addTimeConf).(HostConf).(NetType) = "bridge" /\
   (coerceToDefaultBridge delTimeConf).(HostConf).(NetType) = "bridge") /\
  ((coerceToDefaultBridge addTimeConf).(HostConf).(BridgeConf).(BridgeName) = "br0" /\
   (coerceToDefaultBridge delTimeConf).(HostConf).(BridgeConf).(BridgeName) = "br0") /\
  AddOnHost addTimeConf exampleArgs noIPs emptyHost
    = AddOnHost (coerceToDefaultBridge addTimeConf) exampleArgs noIPs emptyHost /\
  (forall e c w',
     AddOnHost addTimeConf exampleArgs noIPs emptyHost = (Returns (e, c), w') ->
     c = coerceToDefaultBridge addTimeConf) /\
  ((12 <= String.length exampleArgs.(ContainerID))%nat ->
   exists e w',
     AddOnHost addTimeConf exampleArgs noIPs emptyHost
       = (Returns (e, coerceToDefaultBridge addTimeConf), w')) /\
  ((DelFromHost delTimeConf exampleArgs hostAfterAdd).2
     = (DelFromHost (coerceToDefaultBridge delTimeConf) exampleArgs hostAfterAdd).2 /\
   errorOf (DelFromHost delTimeConf exampleArgs hostAfterAdd).1
     = errorOf (DelFromHost (coerceToDefaultBridge delTimeConf) exampleArgs hostAfterAdd).1) /\
  (forall d, hostAfterAdd.(saved) !! identity exampleArgs = Some d ->
     DelFromHost delTimeConf exampleArgs hostAfterAdd
       = DelFromHost (coerceToDefaultBridge delTimeConf) exampleArgs hostAfterAdd /\
     (forall e c w',
        DelFromHost delTimeConf exampleArgs hostAfterAdd = (Returns (e, c), w') ->
        c = coerceToDefaultBridge delTimeConf) /\
     ((12 <= String.length exampleArgs.(ContainerID))%nat ->
      exists e w',
        DelFromHost delTimeConf exampleArgs hostAfterAdd
          = (Returns (e, coerceToDefaultBridge delTimeConf), w'))).
Proof.
  assert (HA : addTimeConf.(HostConf).(NetType) <> "bridge") by (simpl; discriminate).
  assert (HD : delTimeConf.(HostConf).(NetType) <> "bridge") by (simpl; discriminate).
  split; [exact HA |]. split; [exact HD |].
  exact (default_bridge_coercion_on_add_and_delete
           addTimeConf delTimeConf exampleArgs noIPs emptyHost hostAfterAdd HA HD).
Defined.

(** ** Unsupported interface types *)

(** C1, as stated, fails: on a host with no bridge, a request of interface
    type "dpdkvirtio" is rejected with the unsupported-type error, but
    the default bridge "br0" has been created by then. *)
Lemma AddOnHost_unsupported_type_creates_bridge :
  ~ unsupported_type_leaves_host_unchanged dpdkvirtioConf exampleArgs noIPs emptyHost.
Proof.
  intros H. destruct H as (conf' & w' & Hrun & Hb & _); [simpl; discriminate |].
  assert (E : (AddOnHost dpdkvirtioConf exampleArgs noIPs emptyHost).2.(bridges)
              = {[ "br0" ]}) by (vm_compute; reflexivity).
  rewrite Hrun in E. simpl in E. rewrite Hb in E.
  change (emptyHost.(bridges)) with (∅ : gset string) in E.
  assert (Hin : "br0" ∈ (∅ : gset string)) by (rewrite E; set_solver).
  set_solver.
Qed.

(** C1, amended: a request whose interface type is not "vhostuser" makes
    [AddOnHost] fail, and the call creates no port, no saved record and no
    socket directory.  The bridge of the normalized request is ensured
    first: when it exists or can be created the error is the
    unsupported-type error and the bridge is there afterwards; when it is
    absent and its creation fails, that failure is the error and the host
    is untouched. *)
Theorem AddOnHost_unsupported_interface_type :
  forall (conf : NetConf) (args : CmdArgs) (ip : Result) (w : World),
    conf.(HostConf).(IfType) <> "vhostuser" ->
    exists err w',
      AddOnHost conf args ip w = (Returns (Some err, normalized conf), w') /\
      w'.(ports) = w.(ports) /\
      w'.(saved) = w.(saved) /\
      w'.(sockDir) = w.(sockDir) /\
      ((err = errorString ("ERROR: Unknown HostConf.IfType:" +:+ conf.(HostConf).(IfType)) /\
        (((normalized conf).(HostConf).(BridgeConf).(BridgeName) ∈ w.(bridges)) \/
         (op_createBridge ∉ w.(failing))) /\
        w'.(bridges) =
          {[ (normalized conf).(HostConf).(BridgeConf).(BridgeName) ]} ∪ w.(bridges))
       \/
       (err = VswitchOperationFailed op_createBridge /\
        ((normalized conf).(HostConf).(BridgeConf).(BridgeName) ∉ w.(bridges)) /\
        (op_createBridge ∈ w.(failing)) /\
        w' = w)).
Proof.
  intros conf args ip w Hif.
  set (conf' := normalized conf).
  set (br := conf'.(HostConf).(BridgeConf).(BridgeName)).
  assert (Hne : (conf'.(HostConf).(IfType) =? "vhostuser") = false).
  { unfold conf'. rewrite IfType_normalized. apply String.eqb_neq. exact Hif. }
  assert (Hty : conf'.(HostConf).(IfType) = conf.(HostConf).(IfType))
    by apply IfType_normalized.
  assert (Hstep : forall w1, createStep conf' args w1 =
            (Returns (errors_New ("ERROR: Unknown HostConf.IfType:" +:+ conf.(HostConf).(IfType)),
                      zeroSavedData), w1)).
  { intros w1. unfold createStep. rewrite Hne, Hty. reflexivity. }
  rewrite AddOnHost_unfold. fold conf'. unfold AddOnHost_body, bind at 1.
  rewrite addLocalNetworkBridge_eq. fold br. cbv zeta.
  destruct (bool_decide (br ∈ w.(bridges))) eqn:Hin.
  - apply bool_decide_eq_true in Hin.
    rewrite (bind_Returns _ _ _ _ _ (Hstep _)).
    eexists _, w. split; [reflexivity |]. repeat split.
    left. repeat split; [left; exact Hin |].
    symmetry. apply subseteq_union_1_L. apply singleton_subseteq_l. exact Hin.
  - apply bool_decide_eq_false in Hin.
    destruct (bool_decide (op_createBridge ∈ w.(failing))) eqn:Hf.
    + apply bool_decide_eq_true in Hf.
      eexists _, w. split; [reflexivity |]. repeat split.
      right. repeat split; assumption.
    + apply bool_decide_eq_false in Hf.
      rewrite (bind_Returns _ _ _ _ _ (Hstep _)).
      eexists _, _. split; [reflexivity |]. repeat split.
      left. repeat split. right; exact Hf.
Qed.

Lemma AddOnHost_unsupported_interface_type_witness :
  dpdkvirtioConf.(HostConf).(IfType) <> "vhostuser" /\
  exists err w',
    AddOnHost dpdkvirtioConf exampleArgs noIPs emptyHost
      = (Returns (Some err, normalized dpdkvirtioConf), w') /\
    w'.(ports) = emptyHost.(ports) /\
    w'.(saved) = emptyHost.(saved) /\
    w'.(sockDir) = emptyHost.(sockDir) /\
    ((err = errorString
              ("ERROR: Unknown HostConf.IfType:" +:+ dpdkvirtioConf.(HostConf).(IfType)) /\
      (((normalized dpdkvirtioConf).(HostConf).(BridgeConf).(BridgeName)
          ∈ emptyHost.(bridges)) \/
       (op_createBridge ∉ emptyHost.(failing))) /\
      w'.(bridges) =
        {[ (normalized dpdkvirtioConf).(HostConf).(BridgeConf).(BridgeName) ]}
          ∪ emptyHost.(bridges))
     \/
     (err = VswitchOperationFailed op_createBridge /\
      ((normalized dpdkvirtioConf).(HostConf).(BridgeConf).(BridgeName)
          ∉ emptyHost.(bridges)) /\
      (op_createBridge ∈ emptyHost.(failing)) /\
      w' = emptyHost)).
Proof.
  assert (H : dpdkvirtioConf.(HostConf).(IfType) <> "vhostuser") by (simpl; discriminate).
  split; [exact H |].
  exact (AddOnHost_unsupported_interface_type dpdkvirtioConf exampleArgs noIPs emptyHost H).
Defined.

(** ** Bridge lifecycle *)

Lemma AddOnHost_body_bridges conf args w :
  (AddOnHost_body conf args w).2.(bridges)
  = (addLocalNetworkBridge conf args zeroSavedData w).2.(bridges).
Proof.
  unfold AddOnHost_body. apply (bind_snd bridges).
  intros [e |]; [frame |].
  apply preserves_bind; [apply createStep_bridges |].
  intros [[e |] d]; [frame |].
  apply preserves_bind; [apply SaveConfig_bridges | intros; frame].
Qed.

Lemma AddOnHost_bridges conf args ip w :
  let br := (normalized conf).(HostConf).(BridgeConf).(BridgeName) in
  let w' := (AddOnHost conf args ip w).2 in
  (w'.(bridges) = w.(bridges)) \/
  ((br ∉ w.(bridges)) /\ w'.(bridges) = {[ br ]} ∪ w.(bridges)).
Proof.
  intros br w'. subst w'. rewrite AddOnHost_unfold, AddOnHost_body_bridges.
  rewrite addLocalNetworkBridge_eq. fold br. cbv zeta.
  destruct (bool_decide (br ∈ w.(bridges))) eqn:Hq; simpl; [left; reflexivity |].
  destruct (bool_decide (op_createBridge ∈ w.(failing))); simpl; [left; reflexivity |].
  right. split; [| reflexivity]. apply bool_decide_eq_false in Hq. exact Hq.
Qed.

Lemma DelFromHost_bridges conf args w :
  let br := (normalized conf).(HostConf).(BridgeConf).(BridgeName) in
  let w' := (DelFromHost conf args w).2 in
  (w'.(bridges) = w.(bridges)) \/
  (~ hasInterfaces br w' /\ w'.(bridges) = w.(bridges) ∖ {[ br ]}).
Proof.
  intros br w'. subst w'.
  destruct (DelFromHost conf args w) as [o w'] eqn:Hr. simpl.
  rewrite DelFromHost_unfold in Hr. unfold bind at 1 in Hr.
  rewrite LoadConfig_eq in Hr.
  destruct (w.(saved) !! identity args) as [d |]; simpl in Hr.
  2: { unfold ret in Hr. injection Hr as _ <-. left; reflexivity. }
  set (w1 := set_saved (delete (identity args)) w) in Hr.
  unfold DelFromHost_body in Hr. unfold bind at 1 in Hr.
  pose proof (deleteStep_bridges (normalized conf) args d w1) as Hb.
  destruct (deleteStep (normalized conf) args d w1) as [[[e |] | msg] w2];
    simpl in Hb, Hr.
  - unfold ret in Hr. injection Hr as _ <-. left. exact Hb.
  - unfold bind in Hr. rewrite delLocalNetworkBridge_eq in Hr. fold br in Hr.
    cbv zeta in Hr.
    destruct (bool_decide (hasInterfaces br w2)) eqn:Hq; simpl in Hr.
    { unfold ret in Hr. injection Hr as _ <-. left; exact Hb. }
    destruct (bool_decide (op_deleteBridge ∈ w2.(failing))); simpl in Hr.
    { unfold ret in Hr. injection Hr as _ <-. left; exact Hb. }
    unfold ret in Hr. injection Hr as _ <-.
    right. split.
    + apply bool_decide_eq_false in Hq. exact Hq.
    + simpl. rewrite Hb. reflexivity.
  - injection Hr as _ <-. left. exact Hb.
Qed.

(** C8: the bridge is created and deleted by need.  With [br] the bridge
    name of the normalized request: [addLocalNetworkBridge] does nothing
    when [br] exists and is [createBridge br] when it is absent, so
    [AddOnHost] leaves the set of bridges alone when [br] exists and at
    most adds [br] to it otherwise; [delLocalNetworkBridge] does nothing
    when an interface is attached to [br] and is [deleteBridge br] when
    none is, so [DelFromHost] at most removes [br], and only when the host
    it leaves has no interface attached to [br]. *)
Theorem bridge_lifecycle :
  forall (conf : NetConf) (args : CmdArgs) (ip : Result) (data : OvsSavedData) (w : World),
    let c := normalized conf in
    let br := c.(HostConf).(BridgeConf).(BridgeName) in
    let wA := (AddOnHost conf args ip w).2 in
    let wD := (DelFromHost conf args w).2 in
    (br ∈ w.(bridges) -> addLocalNetworkBridge c args data w = (Returns nil_error, w)) /\
    (br ∉ w.(bridges) -> addLocalNetworkBridge c args data w = createBridge br w) /\
    (br ∈ w.(bridges) -> wA.(bridges) = w.(bridges)) /\
    ((wA.(bridges) = w.(bridges)) \/
     ((br ∉ w.(bridges)) /\ wA.(bridges) = {[ br ]} ∪ w.(bridges))) /\
    (hasInterfaces br w -> delLocalNetworkBridge c args data w = (Returns nil_error, w)) /\
    (~ hasInterfaces br w -> delLocalNetworkBridge c args data w = deleteBridge br w) /\
    (hasInterfaces br wD -> wD.(bridges) = w.(bridges)) /\
    ((wD.(bridges) = w.(bridges)) \/
     (~ hasInterfaces br wD /\ wD.(bridges) = w.(bridges) ∖ {[ br ]})).
Proof.
  intros conf args ip data w c br wA wD.
  pose proof (AddOnHost_bridges conf args ip w) as HA.
  pose proof (DelFromHost_bridges conf args w) as HD.
  cbv zeta in HA, HD. fold c in HA, HD. fold br in HA, HD. fold wA in HA. fold wD in HD.
  repeat split.
  - intros Hin. rewrite addLocalNetworkBridge_eq. fold br. cbv zeta.
    rewrite bool_decide_eq_true_2 by exact Hin. reflexivity.
  - intros Hni. rewrite addLocalNetworkBridge_eq, createBridge_eq. fold br. cbv zeta.
    rewrite bool_decide_eq_false_2 by exact Hni. reflexivity.
  - intros Hin. destruct HA as [HA | [Hni _]]; [exact HA | contradiction].
  - exact HA.
  - intros Hex. rewrite delLocalNetworkBridge_eq. fold br. cbv zeta.
    rewrite bool_decide_eq_true_2 by exact Hex. reflexivity.
  - intros Hnex. rewrite delLocalNetworkBridge_eq, deleteBridge_eq. fold br. cbv zeta.
    rewrite bool_decide_eq_false_2 by exact Hnex. reflexivity.
  - intros Hex. destruct HD as [HD | [Hnex _]]; [exact HD | contradiction].
  - exact HD.
Qed.

(** On the host left by the example [AddOnHost], where "br0" exists and
    carries the example port, a second Add does not touch the bridges; on
    the empty host the bridge helper is the plain creation, and the
    release helper is the plain deletion. *)
Lemma bridge_lifecycle_witness :
  ("br0" ∈ hostAfterAdd.(bridges) /\
   addLocalNetworkBridge (normalized addTimeConf) exampleArgs zeroSavedData hostAfterAdd
     = (Returns nil_error, hostAfterAdd) /\
   (AddOnHost addTimeConf exampleArgs noIPs hostAfterAdd).2.(bridges)
     = hostAfterAdd.(bridges)) /\
  (hasInterfaces "br0" hostAfterAdd /\
   delLocalNetworkBridge (normalized addTimeConf) exampleArgs zeroSavedData hostAfterAdd
     = (Returns nil_error, hostAfterAdd)) /\
  (("br0" ∉ emptyHost.(bridges)) /\
   addLocalNetworkBridge (normalized addTimeConf) exampleArgs zeroSavedData emptyHost
     = createBridge "br0" emptyHost) /\
  (~ hasInterfaces "br0" emptyHost /\
   delLocalNetworkBridge (normalized addTimeConf) exampleArgs zeroSavedData emptyHost
     = deleteBridge "br0" emptyHost).
Proof.
  destruct (bridge_lifecycle addTimeConf exampleArgs noIPs zeroSavedData hostAfterAdd)
    as (Hadd & _ & HaddTop & _ & Hdel & _).
  destruct (bridge_lifecycle addTimeConf exampleArgs noIPs zeroSavedData emptyHost)
    as (_ & Hadd0 & _ & _ & _ & Hdel0 & _).
  assert (Hin : "br0" ∈ hostAfterAdd.(bridges)).
  { apply (bool_decide_eq_true_1 ("br0" ∈ hostAfterAdd.(bridges))).
    vm_compute. reflexivity. }
  assert (Hif : hasInterfaces "br0" hostAfterAdd).
  { unfold hasInterfaces.
    apply (bool_decide_eq_true_1
             (map_Exists (fun _ p => p.(port_bridge) = "br0") hostAfterAdd.(ports))).
    vm_compute. reflexivity. }
  assert (Hni : "br0" ∉ emptyHost.(bridges)).
  { apply (bool_decide_eq_false_1 ("br0" ∈ emptyHost.(bridges))).
    vm_compute. reflexivity. }
  assert (Hnif : ~ hasInterfaces "br0" emptyHost).
  { unfold hasInterfaces.
    apply (bool_decide_eq_false_1
             (map_Exists (fun _ p => p.(port_bridge) = "br0") emptyHost.(ports))).
    vm_compute. reflexivity. }
  split; [split; [exact Hin | split; [exact (Hadd Hin) | exact (HaddTop Hin)]] |].
  split; [split; [exact Hif | exact (Hdel Hif)] |].
  split; [split; [exact Hni | exact (Hadd0 Hni)] |].
  split; [exact Hnif | exact (Hdel0 Hnif)].
Defined.

(** ** Delete without a saved record *)

Lemma DelFromHost_body_saved conf args d : preserves saved (DelFromHost_body conf args d).
Proof.
  unfold DelFromHost_body. apply preserves_bind; [apply deleteStep_saved |].
  intros [e |]; [frame |].
  apply preserves_bind; [apply delLocalNetworkBridge_saved | intros; frame].
Qed.

(** Whatever its outcome, [DelFromHost] leaves no record for the identity. *)
Lemma DelFromHost_erases_record conf args w :
  (DelFromHost conf args w).2.(saved) !! identity args = None.
Proof.
  destruct (w.(saved) !! identity args) as [d |] eqn:Hd.
  - rewrite (DelFromHost_loaded _ _ d _ Hd), DelFromHost_body_saved. simpl.
    apply lookup_delete_eq.
  - rewrite DelFromHost_unfold. unfold bind. rewrite LoadConfig_eq, Hd. exact Hd.
Qed.

(** An [AddOnHost] that does not return [nil] leaves the store as it was. *)
Lemma AddOnHost_failed_leaves_store conf args ip w :
  (forall c, (AddOnHost conf args ip w).1 <> Returns (nil_error, c)) ->
  (AddOnHost conf args ip w).2.(saved) = w.(saved).
Proof.
  intros Hfail.
  destruct (AddOnHost conf args ip w) as [o w'] eqn:Hr. simpl in Hfail |- *.
  rewrite AddOnHost_unfold in Hr. unfold AddOnHost_body, bind at 1 in Hr.
  pose proof (addLocalNetworkBridge_saved (normalized conf) args zeroSavedData w) as H1.
  destruct (addLocalNetworkBridge (normalized conf) args zeroSavedData w)
    as [[[e1 |] | m1] w1]; simpl in H1, Hr.
  - injection Hr as _ <-. exact H1.
  - unfold bind at 1 in Hr.
    pose proof (createStep_saved (normalized conf) args w1) as H2.
    destruct (createStep (normalized conf) args w1) as [[[[e2 |] d2] | m2] w2];
      simpl in H2, Hr.
    + injection Hr as _ <-. rewrite H2. exact H1.
    + unfold bind in Hr. rewrite SaveConfig_eq in Hr.
      destruct (bool_decide (op_SaveConfig ∈ w2.(failing))) eqn:Hs; simpl in Hr.
      * injection Hr as _ <-. rewrite H2. exact H1.
      * injection Hr as <- _. exfalso. exact (Hfail _ eq_refl).
    + injection Hr as _ <-. rewrite H2. exact H1.
  - injection Hr as _ <-. exact H1.
Qed.

(** C6: when the store holds no record for the identity, [DelFromHost]
    returns [ConfigNotFound], hands the request back as it came, and the
    host after the call is the host before it: no bridge, port, socket
    file or record has changed. *)
Theorem DelFromHost_without_record :
  forall (conf : NetConf) (args : CmdArgs) (w : World),
    w.(saved) !! identity args = None ->
    DelFromHost conf args w = (Returns (Some ConfigNotFound, conf), w).
Proof.
  intros conf args w Hnone.
  rewrite DelFromHost_unfold. unfold bind. rewrite LoadConfig_eq, Hnone. reflexivity.
Qed.

Lemma DelFromHost_without_record_witness :
  emptyHost.(saved) !! identity exampleArgs = None /\
  DelFromHost delTimeConf exampleArgs emptyHost
    = (Returns (Some ConfigNotFound, delTimeConf), emptyHost).
Proof.
  assert (H : emptyHost.(saved) !! identity exampleArgs = None) by (vm_compute; reflexivity).
  split; [exact H |].
  exact (DelFromHost_without_record delTimeConf exampleArgs emptyHost H).
Defined.

(** The two ways the claim names to be without a record. *)
Lemma DelFromHost_after_DelFromHost conf conf' args w :
  let w' := (DelFromHost conf args w).2 in
  DelFromHost conf' args w' = (Returns (Some ConfigNotFound, conf'), w').
Proof.
  intros w'. rewrite DelFromHost_unfold. unfold bind.
  rewrite LoadConfig_eq. unfold w'. rewrite DelFromHost_erases_record. reflexivity.
Qed.

Lemma DelFromHost_after_failed_AddOnHost conf conf' args ip w :
  w.(saved) !! identity args = None ->
  (forall c, (AddOnHost conf args ip w).1 <> Returns (nil_error, c)) ->
  let w' := (AddOnHost conf args ip w).2 in
  DelFromHost conf' args w' = (Returns (Some ConfigNotFound, conf'), w').
Proof.
  intros Hnone Hfail w'. rewrite DelFromHost_unfold. unfold bind.
  rewrite LoadConfig_eq. unfold w'.
  rewrite (AddOnHost_failed_leaves_store _ _ _ _ Hfail), Hnone. reflexivity.
Qed.

(** ** Cleaning the socket directory *)

Lemma set_sockDir_same files w : w.(sockDir) = Some files -> set_sockDir (Some files) w = w.
Proof. intros H. destruct w; simpl in *; subst; reflexivity. Qed.

Lemma filter_all_matching (P : string -> Prop) `{!forall x, Decision (P x)} (l : list string) :
  (forall f, f ∈ l -> P f) -> filter P l = l.
Proof.
  induction l as [| f rest IH]; intros Hall; [reflexivity |].
  rewrite filter_cons. destruct (decide (P f)) as [_ | Hn].
  - f_equal. apply IH. intros g Hg. apply Hall. right. exact Hg.
  - exfalso. apply Hn, Hall. left.
Qed.

(** With no removal failing, the loop removes from the directory exactly
    the listed names that pass the test, and counts them. *)
Lemma removeMatchingFiles_eq base (l : list string) :
  forall n w files,
    w.(sockDir) = Some files ->
    NoDup l ->
    (forall f, f ∈ l -> f ∈ files) ->
    (forall p, op_Remove p ∉ w.(failing)) ->
    let removed := filter (fun f => matchesBase base f = true) l in
    removeMatchingFiles DefaultSocketDir base l n w =
      (Returns (nil_error, (n + Z.of_nat (length removed))%Z),
       set_sockDir (Some (files ∖ list_to_set removed)) w).
Proof.
  induction l as [| f rest IH]; intros n w files Hd Hnd Hin Hnf removed; subst removed.
  - simpl. unfold ret. rewrite Z.add_0_r.
    replace (files ∖ (∅ : gset string)) with files
      by (symmetry; apply leibniz_equiv, difference_empty).
    rewrite set_sockDir_same by exact Hd. reflexivity.
  - apply NoDup_cons in Hnd as [Hnotin Hnd].
    rewrite filter_cons. simpl removeMatchingFiles.
    fold (matchesBase base f).
    destruct (GoRegexp.MatchString (base +:+ ".*") f) as [m e] eqn:E.
    assert (Hm : matchesBase base f = m) by (unfold matchesBase; rewrite E; reflexivity).
    destruct m.
    + rewrite decide_True by exact Hm.
      unfold bind. simpl filepath_Join.
      rewrite (os_Remove_file_ok f files w (Hnf _) Hd (Hin f (list_elem_of_here _ _))).
      rewrite (IH (n + 1)%Z _ (files ∖ {[ f ]})); try assumption.
      * f_equal.
        -- f_equal. f_equal. simpl length. lia.
        -- simpl list_to_set. unfold set_sockDir. simpl. f_equal. f_equal.
           apply leibniz_equiv. rewrite difference_difference_l. reflexivity.
      * reflexivity.
      * intros g Hg. apply elem_of_difference. split.
        -- apply Hin. right. exact Hg.
        -- intros Heq. apply elem_of_singleton in Heq. subst g. contradiction.
    + rewrite decide_False by (rewrite Hm; discriminate).
      apply IH; try assumption.
      intros g Hg. apply Hin. right. exact Hg.
Qed.

Lemma filter_full_length (P : string -> Prop) `{!forall x, Decision (P x)} (l : list string) :
  length (filter P l) = length l -> filter P l = l.
Proof.
  induction l as [| f rest IH]; intros Hlen; [reflexivity |].
  rewrite filter_cons in Hlen |- *. destruct (decide (P f)) as [_ | Hn].
  - f_equal. apply IH. simpl in Hlen. lia.
  - exfalso. pose proof (length_filter P rest) as Hle. simpl in Hlen. lia.
Qed.

(** What [delLocalDeviceVhost] does when the port deletion and the
    filesystem calls succeed: the port is deleted, the names of the listing
    that pass the test are removed, and the directory itself is removed
    when every name of the listing passed. *)
Lemma delLocalDeviceVhost_cleanup conf args data w files :
  (12 <= String.length args.(ContainerID))%nat ->
  op_deleteVhostPort ∉ w.(failing) ->
  op_Open ∉ w.(failing) ->
  op_Readdirnames ∉ w.(failing) ->
  (forall p, op_Remove p ∉ w.(failing)) ->
  w.(sockDir) = Some files ->
  let matched := filter (fun f => matchesAttachment args f = true) (elements files) in
  let bridgeName :=
    if conf.(HostConf).(NetType) =? "bridge"
    then conf.(HostConf).(BridgeConf).(BridgeName) else "" in
  delLocalDeviceVhost conf args data w =
    (Returns nil_error,
     set_sockDir
       (if bool_decide (length matched = length (elements files))
        then None else Some (files ∖ list_to_set matched))
       (set_ports (deletePortFrom data.(Vhostname) bridgeName) w)).
Proof.
  intros Hlen Hdel Hopen Hread Hrm Hd matched bridgeName.
  unfold delLocalDeviceVhost. fold bridgeName.
  rewrite (bind_Returns _ _ _ _ _ (deleteVhostPort_ok _ _ _ Hdel)).
  set (w1 := set_ports (deletePortFrom data.(Vhostname) bridgeName) w).
  cbn beta iota.
  rewrite (bind_Returns _ _ _ _ _ (os_Open_dir_ok files w1 Hopen Hd)). cbn beta iota.
  rewrite (bind_Returns _ _ _ _ _ (slice_to_ok _ _ w1 Hlen)).
  rewrite (bind_Returns _ _ _ _ _ (Readdirnames_ok files 0 w1 Hread Hd)). cbn beta iota.
  rewrite (bind_Returns _ _ _ _ _
             (removeMatchingFiles_eq _ (elements files) 0%Z w1 files Hd
                (NoDup_elements files)
                (fun f Hf => proj1 (elem_of_elements files f) Hf) Hrm)).
  cbn beta iota zeta.
  change (filter (fun f => matchesBase (substring 0 12 args.(ContainerID) +:+ "-" +:+ args.(IfName)) f = true)
            (elements files)) with matched.
  rewrite Z.add_0_l.
  destruct (bool_decide (length matched = length (elements files))) eqn:Hall.
  - apply bool_decide_eq_true in Hall.
    rewrite Hall, Z.eqb_refl.
    assert (Hfull : matched = elements files) by (apply filter_full_length; exact Hall).
    rewrite (bind_Returns _ _ _ _ _
               (os_Remove_dir_ok (set_sockDir (Some (files ∖ list_to_set matched)) w1)
                  (Hrm _)
                  ltac:(simpl; f_equal; rewrite Hfull, list_to_set_elements_L;
                        apply leibniz_equiv, difference_diag))).
    reflexivity.
  - apply bool_decide_eq_false in Hall.
    destruct (Z.eqb_spec (Z.of_nat (length matched)) (Z.of_nat (length (elements files))))
      as [Heq | _]; [exfalso; apply Hall; lia | reflexivity].
Qed.

(** C10: once the record is loaded and the port deleted, if every name in
    the listing of the socket directory passes the test of
    [delLocalDeviceVhost] (and no filesystem call fails), [DelFromHost]
    returns with the directory removed.  The hypothesis on the names holds
    of the empty listing, so a directory with no file in it is removed
    although the call deleted no file. *)
Theorem socket_directory_removed_when_all_files_match :
  forall (conf : NetConf) (args : CmdArgs) (w : World) (d : OvsSavedData)
         (files : gset string),
    w.(saved) !! identity args = Some d ->
    conf.(HostConf).(IfType) = "vhostuser" ->
    (12 <= String.length args.(ContainerID))%nat ->
    op_deleteVhostPort ∉ w.(failing) ->
    op_Open ∉ w.(failing) ->
    op_Readdirnames ∉ w.(failing) ->
    (forall p, op_Remove p ∉ w.(failing)) ->
    w.(sockDir) = Some files ->
    (forall f, f ∈ files -> matchesAttachment args f = true) ->
    exists e w',
      DelFromHost conf args w = (Returns (e, normalized conf), w') /\
      w'.(sockDir) = None.
Proof.
  intros conf args w d files Hs Hif Hlen Hdel Hopen Hread Hrm Hd Hm.
  rewrite (DelFromHost_loaded _ _ d _ Hs).
  set (w0 := set_saved (delete (identity args)) w).
  unfold DelFromHost_body, deleteStep.
  rewrite IfType_normalized, Hif. cbn beta iota.
  change ("vhostuser" =? "vhostuser") with true. cbn beta iota.
  rewrite (bind_Returns _ _ _ _ _
             (delLocalDeviceVhost_cleanup (normalized conf) args d w0 files
                Hlen Hdel Hopen Hread Hrm Hd)).
  cbn beta iota zeta.
  rewrite (filter_all_matching _ (elements files))
    by (intros f Hf; apply Hm, elem_of_elements; exact Hf).
  rewrite bool_decide_eq_true_2 by reflexivity.
  set (w1 := set_sockDir None _).
  unfold bind.
  destruct (never_panics_delLocalNetworkBridge (normalized conf) args d w1) as [e2 H2].
  pose proof (delLocalNetworkBridge_sockDir (normalized conf) args d w1) as Hfr.
  destruct (delLocalNetworkBridge (normalized conf) args d w1) as [o2 w2].
  simpl in H2, Hfr. subst o2.
  exists e2, w2. split; [reflexivity | exact Hfr].
Qed.

Lemma socket_directory_removed_when_all_files_match_witness :
  (hostAfterAdd.(sockDir) = Some ∅ /\
   exists e w',
     DelFromHost addTimeConf exampleArgs hostAfterAdd
       = (Returns (e, normalized addTimeConf), w') /\
     w'.(sockDir) = None) /\
  ((forall f, f ∈ ({[ "abc123def456-eth0"; "abc123def456-eth0.lock" ]} : gset string) ->
      matchesAttachment exampleArgs f = true) /\
   exists e w',
     DelFromHost addTimeConf exampleArgs
       (hostWithFiles {[ "abc123def456-eth0"; "abc123def456-eth0.lock" ]})
       = (Returns (e, normalized addTimeConf), w') /\
     w'.(sockDir) = None).
Proof.
  assert (Hs : forall files,
            (hostWithFiles files).(saved) !! identity exampleArgs = Some exampleSavedData)
    by (intros files; vm_compute; reflexivity).
  assert (Hif : addTimeConf.(HostConf).(IfType) = "vhostuser") by reflexivity.
  assert (Hlen : (12 <= String.length exampleArgs.(ContainerID))%nat) by (simpl; lia).
  assert (Hnf : forall files c, c ∉ (hostWithFiles files).(failing))
    by (intros files c; apply not_elem_of_nil).
  assert (Hm : forall f,
            f ∈ ({[ "abc123def456-eth0"; "abc123def456-eth0.lock" ]} : gset string) ->
            matchesAttachment exampleArgs f = true).
  { intros f Hf. apply elem_of_union in Hf as [Hf | Hf];
      apply elem_of_singleton in Hf; subst f; vm_compute; reflexivity. }
  split.
  - split; [reflexivity |].
    apply (socket_directory_removed_when_all_files_match
             addTimeConf exampleArgs hostAfterAdd exampleSavedData ∅
             (Hs ∅) Hif Hlen (Hnf ∅ _) (Hnf ∅ _) (Hnf ∅ _) (fun p => Hnf ∅ _) eq_refl).
    intros f Hf. exfalso. exact (not_elem_of_empty f Hf).
  - split; [exact Hm |].
    exact (socket_directory_removed_when_all_files_match
             addTimeConf exampleArgs _ exampleSavedData _
             (Hs _) Hif Hlen (Hnf _ _) (Hnf _ _) (Hnf _ _) (fun p => Hnf _ _) eq_refl Hm).
Defined.

(** ** The test on file names, for reference strings of ordinary characters *)

Lemma parseAtom_plain c :
  GoRegexp.isMeta c = false -> GoRegexp.parseAtom c = Some (GoRegexp.Lit c).
Proof.
  intros Hc. unfold GoRegexp.parseAtom. rewrite Hc.
  destruct (Ascii.eqb c ".") eqn:E; [| reflexivity].
  apply Ascii.eqb_eq in E. subst c. discriminate Hc.
Qed.

Lemma not_star_plain c : GoRegexp.isMeta c = false -> Ascii.eqb c "*" = false.
Proof.
  intros Hc. destruct (Ascii.eqb c "*") eqn:E; [| reflexivity].
  apply Ascii.eqb_eq in E. subst c. discriminate Hc.
Qed.

Lemma parse_plain base :
  plain base = true ->
  GoRegexp.parse (base +:+ ".*") = Some (literal base ++ anyString)%list.
Proof.
  induction base as [| c base' IH]; intros Hp; [reflexivity |].
  simpl in Hp. apply andb_true_iff in Hp as [Hc Hp]. apply negb_true_iff in Hc.
  specialize (IH Hp).
  change (String c base' +:+ ".*") with (String c (base' +:+ ".*")).
  simpl GoRegexp.parse. rewrite (parseAtom_plain c Hc).
  destruct base' as [| c2 base''].
  - simpl. reflexivity.
  - change (String c2 base'' +:+ ".*") with (String c2 (base'' +:+ ".*")) in IH |- *.
    simpl in Hp. apply andb_true_iff in Hp as [Hc2 _]. apply negb_true_iff in Hc2.
    rewrite (not_star_plain c2 Hc2). rewrite IH. reflexivity.
Qed.

Lemma matchHere_literal base s :
  GoRegexp.matchHere (literal base ++ anyString)%list s = hasPrefix base s.
Proof.
  revert s. induction base as [| c base' IH]; intros s.
  - destruct s; reflexivity.
  - destruct s as [| c' s']; [reflexivity |].
    simpl. rewrite IH. reflexivity.
Qed.

Lemma matchAnywhere_literal base s :
  GoRegexp.matchAnywhere (literal base ++ anyString)%list s = contains base s.
Proof.
  induction s as [| c s' IH]; simpl; rewrite matchHere_literal; [reflexivity |].
  rewrite IH. reflexivity.
Qed.

(** For a reference string of ordinary characters the test holds of the
    names that contain it, wherever it occurs in them. *)
Lemma matchesBase_plain base fileName :
  plain base = true -> matchesBase base fileName = contains base fileName.
Proof.
  intros Hp. unfold matchesBase, GoRegexp.MatchString.
  rewrite (parse_plain base Hp). simpl. apply matchAnywhere_literal.
Qed.

Lemma hasPrefix_contains base s : hasPrefix base s = true -> contains base s = true.
Proof. intros H. destruct s; simpl; rewrite H; reflexivity. Qed.

(** So every file whose name starts with the reference string passes the
    test, and so does every other file that contains it. *)
Lemma matchesAttachment_prefixed args fileName :
  plain (fileBaseNameOf args) = true ->
  hasPrefix (fileBaseNameOf args) fileName = true ->
  matchesAttachment args fileName = true.
Proof.
  intros Hp Hpre. unfold matchesAttachment.
  rewrite (matchesBase_plain _ _ Hp). apply hasPrefix_contains. exact Hpre.
Qed.

(** What the cleanup of [DelFromHost] does for a reference string of
    ordinary characters, the port deletion and the filesystem calls
    succeeding: the files whose name contains the reference string are
    removed, the others stay, and the directory goes when none stays. *)
Lemma DelFromHost_cleanup conf args w d files :
  w.(saved) !! identity args = Some d ->
  conf.(HostConf).(IfType) = "vhostuser" ->
  (12 <= String.length args.(ContainerID))%nat ->
  plain (fileBaseNameOf args) = true ->
  op_deleteVhostPort ∉ w.(failing) ->
  op_Open ∉ w.(failing) ->
  op_Readdirnames ∉ w.(failing) ->
  (forall p, op_Remove p ∉ w.(failing)) ->
  w.(sockDir) = Some files ->
  exists e w',
    DelFromHost conf args w = (Returns (e, normalized conf), w') /\
    match w'.(sockDir) with
    | None => forall f, f ∈ files -> contains (fileBaseNameOf args) f = true
    | Some kept =>
        forall f, f ∈ kept <-> (f ∈ files /\ contains (fileBaseNameOf args) f = false)
    end.
Proof.
  intros Hs Hif Hlen Hp Hdel Hopen Hread Hrm Hd.
  rewrite (DelFromHost_loaded _ _ d _ Hs).
  set (w0 := set_saved (delete (identity args)) w).
  unfold DelFromHost_body, deleteStep.
  rewrite IfType_normalized, Hif.
  change ("vhostuser" =? "vhostuser") with true. cbn beta iota.
  rewrite (bind_Returns _ _ _ _ _
             (delLocalDeviceVhost_cleanup (normalized conf) args d w0 files
                Hlen Hdel Hopen Hread Hrm Hd)).
  cbn beta iota zeta.
  set (matched := filter (fun f => matchesAttachment args f = true) (elements files)).
  set (w1 := set_sockDir _ _).
  unfold bind.
  destruct (never_panics_delLocalNetworkBridge (normalized conf) args d w1) as [e2 H2].
  pose proof (delLocalNetworkBridge_sockDir (normalized conf) args d w1) as Hfr.
  destruct (delLocalNetworkBridge (normalized conf) args d w1) as [o2 w2].
  simpl in H2, Hfr. subst o2.
  exists e2, w2. split; [reflexivity |]. rewrite Hfr. unfold w1. simpl.
  assert (Hin : forall f, f ∈ matched <->
                  (f ∈ files /\ contains (fileBaseNameOf args) f = true)).
  { intros f. unfold matched. rewrite list_elem_of_filter, elem_of_elements.
    unfold matchesAttachment. rewrite (matchesBase_plain _ _ Hp). tauto. }
  destruct (bool_decide (length matched = length (elements files))) eqn:Hall.
  - apply bool_decide_eq_true in Hall.
    assert (Hfull : matched = elements files) by (apply filter_full_length; exact Hall).
    intros f Hf. apply (Hin f). rewrite Hfull. apply elem_of_elements. exact Hf.
  - intros f. rewrite elem_of_difference, elem_of_list_to_set, (Hin f).
    destruct (contains (fileBaseNameOf args) f); split.
    + intros [Hf Hn]. exfalso. apply Hn. split; [exact Hf | reflexivity].
    + intros [_ Hc]. discriminate Hc.
    + intros [Hf _]. split; [exact Hf | reflexivity].
    + intros [Hf _]. split; [exact Hf |]. intros [_ Hc]. discriminate Hc.
Qed.

(** ** A port deletion that fails *)

(** Whenever the record is loaded and the vswitch fails to delete the
    port, [DelFromHost] goes on to the bridge step and returns what that
    step returns: the error of the port deletion is lost. *)
Lemma DelFromHost_port_deletion_failure conf args w d :
  w.(saved) !! identity args = Some d ->
  conf.(HostConf).(IfType) = "vhostuser" ->
  op_deleteVhostPort ∈ w.(failing) ->
  DelFromHost conf args w =
    (let* err := delLocalNetworkBridge (normalized conf) args d in
     ret (err, normalized conf)) (set_saved (delete (identity args)) w).
Proof.
  intros Hs Hif Hf.
  rewrite (DelFromHost_loaded _ _ d _ Hs).
  unfold DelFromHost_body, deleteStep. rewrite IfType_normalized, Hif.
  change ("vhostuser" =? "vhostuser") with true. cbn beta iota.
  set (w0 := set_saved (delete (identity args)) w).
  assert (Hdel : delLocalDeviceVhost (normalized conf) args d w0 = (Returns nil_error, w0)).
  { unfold delLocalDeviceVhost. cbv zeta.
    rewrite (bind_Returns _ _ _ _ _ (deleteVhostPort_failing _ _ w0 Hf)). reflexivity. }
  rewrite (bind_Returns _ _ _ _ _ Hdel). reflexivity.
Qed.

(** C3 fails on the code.  On the host left by the example [AddOnHost],
    with the vswitch refusing to delete ports, [DelFromHost] returns [nil]:
    the record is erased, the port and the bridge stay.  When in addition
    the port is already gone, the call also runs the bridge step, which
    deletes "br0", and still returns [nil]. *)
Theorem DelFromHost_swallows_port_deletion_failure :
  deleteVhostPort exampleSavedData.(Vhostname) "br0" hostDelPortFails
    = (Returns (Some (VswitchOperationFailed op_deleteVhostPort)), hostDelPortFails) /\
  DelFromHost serverConf exampleArgs hostDelPortFails
    = (Returns (nil_error, serverConf),
       set_saved (delete (identity exampleArgs)) hostDelPortFails) /\
  deleteVhostPort exampleSavedData.(Vhostname) "br0" hostPortGoneDelPortFails
    = (Returns (Some (VswitchOperationFailed op_deleteVhostPort)),
       hostPortGoneDelPortFails) /\
  hostPortGoneDelPortFails.(bridges) = {[ "br0" ]} /\
  DelFromHost serverConf exampleArgs hostPortGoneDelPortFails
    = (Returns (nil_error, serverConf),
       set_bridges (fun _ => ∅)
         (set_saved (delete (identity exampleArgs)) hostPortGoneDelPortFails)).
Proof.
  split; [apply deleteVhostPort_failing, list_elem_of_here |].
  split; [vm_compute; reflexivity |].
  split; [apply deleteVhostPort_failing, list_elem_of_here |].
  split; vm_compute; reflexivity.
Qed.

(** ** Provisioning the port *)

(** The three ways [addLocalDeviceVhost] can end: a panic; an error, from
    the calls before the MAC query, with the data untouched; or [nil], the
    port created and the data filled in, whatever the MAC query returned. *)
Lemma addLocalDeviceVhost_inv conf args data w o w' :
  addLocalDeviceVhost conf args data w = (o, w') ->
  (exists msg, o = Panics msg) \/
  (exists e, o = Returns (Some e, data) /\ e <> VswitchOperationFailed op_getVhostPortMac) \/
  (exists w1 w2 mac macErr ifMac,
     w1.(failing) = w.(failing) /\
     (op_createVhostPort ∉ w1.(failing)) /\
     w2 = set_ports (insert (fileBaseNameOf args)
            {| port_bridge :=
                 if conf.(HostConf).(NetType) =? "bridge"
                 then conf.(HostConf).(BridgeConf).(BridgeName) else "";
               port_socketDir := DefaultSocketDir;
               port_socketRef := fileBaseNameOf args;
               port_clientMode := conf.(HostConf).(VhostConf).(Mode) =? "Mode";
               port_mac := w1.(vswitchMac) |}) w1 /\
     getVhostPortMac (fileBaseNameOf args) w2 = (Returns (mac, macErr), w2) /\
     generateRandomMacAddress w2 = (Returns ifMac, w') /\
     o = Returns (nil_error,
                  set_IfMac ifMac
                    (set_Vhostname (fileBaseNameOf args)
                       match macErr with
                       | None => set_VhostMac mac data
                       | Some _ => data
                       end))).
Proof.
  intros H. unfold addLocalDeviceVhost in H.
  unfold bind at 1 in H. unfold slice_to in H.
  destruct (12 <=? String.length args.(ContainerID))%nat;
    [| left; eexists; injection H as <- _; reflexivity].
  unfold ret at 1 in H. cbv zeta in H. simpl strings_Join in H.
  fold (fileBaseNameOf args) in H.
  unfold bind at 1 in H.
  assert (Hstat : exists e1, os_Stat DefaultSocketDir w = (Returns e1, w) /\
                    e1 <> Some (VswitchOperationFailed op_getVhostPortMac)).
  { unfold os_Stat, bind, fails, gets, ret. simpl.
    destruct (bool_decide (op_Stat ∈ w.(failing))); [eexists; split; [reflexivity | discriminate] |].
    destruct w.(sockDir); eexists; (split; [reflexivity | discriminate]). }
  destruct Hstat as (e1 & Hstat & Hne1). rewrite Hstat in H.
  unfold bind at 1 in H.
  assert (Hmk : exists e2 w1,
            match e1 with
            | Some _ => if os_IsNotExist e1 then os_MkdirAll DefaultSocketDir 448 else ret e1
            | None => ret nil_error
            end w = (Returns e2, w1) /\
            e2 <> Some (VswitchOperationFailed op_getVhostPortMac) /\
            w1.(failing) = w.(failing)).
  { destruct e1 as [e1 |]; [| eexists _, _; repeat split; discriminate].
    destruct (os_IsNotExist (Some e1)); [| eexists _, _; repeat split; exact Hne1].
    unfold os_MkdirAll, bind, fails, gets, modify, ret. simpl.
    destruct (bool_decide (op_MkdirAll ∈ w.(failing)));
      [eexists _, _; repeat split; discriminate |].
    destruct w.(sockDir); eexists _, _; repeat split; discriminate. }
  destruct Hmk as (e2 & w1 & Hmk & Hne2 & Hfail1). rewrite Hmk in H.
  destruct e2 as [e2 |].
  { right; left. exists e2. injection H as <- _. split; [reflexivity |]. congruence. }
  unfold bind at 1 in H. rewrite createVhostPort_eq in H.
  destruct (bool_decide (op_createVhostPort ∈ w1.(failing))) eqn:Hcf.
  { right; left. eexists. injection H as <- _. split; [reflexivity | discriminate]. }
  apply bool_decide_eq_false in Hcf.
  cbn beta iota in H.
  set (w2 := set_ports _ w1) in H.
  unfold bind at 1 in H.
  assert (Hmac : exists mac macErr,
            getVhostPortMac (fileBaseNameOf args) w2 = (Returns (mac, macErr), w2)).
  { unfold getVhostPortMac, bind, fails, gets, ret. simpl.
    destruct (bool_decide (op_getVhostPortMac ∈ w1.(failing))); [eexists _, _; reflexivity |].
    destruct (_ !! _); eexists _, _; reflexivity. }
  destruct Hmac as (mac & macErr & Hmac). rewrite Hmac in H. cbn beta iota in H.
  unfold bind at 1 in H.
  destruct (generateRandomMacAddress w2) as [[ifMac | msg] w3] eqn:Hgen.
  - right; right. exists w1, w2, mac, macErr, ifMac.
    unfold ret in H. injection H as <- <-.
    repeat split; try assumption; reflexivity.
  - left. eexists. injection H as <- _. reflexivity.
Qed.

Lemma generateRandomMacAddress_ports : preserves ports generateRandomMacAddress.
Proof. unfold generateRandomMacAddress, rand_Read. frame. Qed.

Lemma generateRandomMacAddress_saved : preserves saved generateRandomMacAddress.
Proof. unfold generateRandomMacAddress, rand_Read. frame. Qed.

(** Whenever [addLocalDeviceVhost] returns [nil], the port it created is in
    client mode exactly when the mode string of the request is "Mode". *)
Lemma addLocalDeviceVhost_socket_mode conf args data w d' w' :
  addLocalDeviceVhost conf args data w = (Returns (nil_error, d'), w') ->
  port_clientMode <$> (w'.(ports) !! fileBaseNameOf args)
  = Some (conf.(HostConf).(VhostConf).(Mode) =? "Mode").
Proof.
  intros H. apply addLocalDeviceVhost_inv in H.
  destruct H as [[msg H] | [(e & H & _) | H]]; try discriminate H.
  destruct H as (w1 & w2 & mac & macErr & ifMac & _ & _ & Hw2 & _ & Hgen & _).
  pose proof (generateRandomMacAddress_ports w2) as Hp. rewrite Hgen in Hp. simpl in Hp.
  rewrite Hp, Hw2. simpl. rewrite lookup_insert_eq. reflexivity.
Qed.

(** Whenever the MAC query fails, [addLocalDeviceVhost] does not return
    its error: it returns [nil] with [VhostMac] as it was, unless an
    earlier call failed. *)
Lemma addLocalDeviceVhost_mac_query_failure conf args data w o w' :
  op_getVhostPortMac ∈ w.(failing) ->
  addLocalDeviceVhost conf args data w = (o, w') ->
  (forall d', o <> Returns (Some (VswitchOperationFailed op_getVhostPortMac), d')) /\
  (forall d', o = Returns (nil_error, d') -> d'.(VhostMac) = data.(VhostMac)).
Proof.
  intros Hf H. apply addLocalDeviceVhost_inv in H.
  destruct H as [[msg ->] | [(e & -> & Hne) | H]].
  - split; intros d'; discriminate.
  - split; intros d'; [congruence | discriminate].
  - destruct H as (w1 & w2 & mac & macErr & ifMac & Hf1 & _ & Hw2 & Hmac & _ & ->).
    assert (Hf2 : op_getVhostPortMac ∈ w2.(failing)) by (rewrite Hw2; simpl; rewrite Hf1; exact Hf).
    rewrite (getVhostPortMac_failing _ _ Hf2) in Hmac. injection Hmac as <- <-.
    split; intros d'; [discriminate | intros [= <-]; reflexivity].
Qed.

Lemma Mode_normalized conf :
  (normalized conf).(HostConf).(VhostConf).(Mode) = conf.(HostConf).(VhostConf).(Mode).
Proof. unfold normalized. destruct (_ =? _); reflexivity. Qed.

(** The steps of a call of [AddOnHost] that returned [nil]. *)
Lemma AddOnHost_nil_inv conf args ip w c w' :
  AddOnHost conf args ip w = (Returns (nil_error, c), w') ->
  exists w1 w2 d,
    addLocalNetworkBridge (normalized conf) args zeroSavedData w = (Returns nil_error, w1) /\
    addLocalDeviceVhost (normalized conf) args zeroSavedData w1 = (Returns (nil_error, d), w2) /\
    w' = set_saved (insert (identity args) d) w2.
Proof.
  intros H. rewrite AddOnHost_unfold in H. unfold AddOnHost_body, bind at 1 in H.
  destruct (addLocalNetworkBridge (normalized conf) args zeroSavedData w)
    as [[[e1 |] | m1] w1]; try discriminate H.
  unfold bind at 1 in H.
  destruct (createStep (normalized conf) args w1) as [[[[e2 |] d] | m2] w2] eqn:Hc;
    try discriminate H.
  unfold createStep in Hc.
  destruct ((normalized conf).(HostConf).(IfType) =? "vhostuser"); [| discriminate Hc].
  unfold bind in H. rewrite SaveConfig_eq in H.
  destruct (bool_decide (op_SaveConfig ∈ w2.(failing))); [discriminate H |].
  injection H as _ <-. exists w1, w2, d. repeat split. exact Hc.
Qed.

(** Whenever [AddOnHost] returns [nil], the port of the attachment is in
    client mode exactly when the mode string of the request is "Mode". *)
Lemma AddOnHost_socket_mode conf args ip w c w' :
  AddOnHost conf args ip w = (Returns (nil_error, c), w') ->
  port_clientMode <$> (w'.(ports) !! fileBaseNameOf args)
  = Some (conf.(HostConf).(VhostConf).(Mode) =? "Mode").
Proof.
  intros H. apply AddOnHost_nil_inv in H as (w1 & w2 & d & _ & Hdev & ->).
  apply addLocalDeviceVhost_socket_mode in Hdev.
  rewrite Mode_normalized in Hdev. exact Hdev.
Qed.

(** ** The socket mode of the port *)

(** C4 fails on the code.  A request of vhost mode "client" gets a port in
    server mode, like a request of mode "server"; the port is in client
    mode only for the mode string "Mode", which line 226 compares with. *)
Theorem AddOnHost_client_mode_not_honoured :
  clientConf.(HostConf).(VhostConf).(Mode) = "client" /\
  (AddOnHost clientConf exampleArgs noIPs emptyHost).1 = Returns (nil_error, clientConf) /\
  port_clientMode <$> (AddOnHost clientConf exampleArgs noIPs emptyHost).2.(ports)
                        !! "abc123def456-eth0" = Some false /\
  port_clientMode <$> (AddOnHost serverConf exampleArgs noIPs emptyHost).2.(ports)
                        !! "abc123def456-eth0" = Some false /\
  port_clientMode <$> (AddOnHost (exampleConf "bridge" "vhostuser" "br0" "Mode")
                         exampleArgs noIPs emptyHost).2.(ports)
                        !! "abc123def456-eth0" = Some true.
Proof. repeat split; vm_compute; reflexivity. Qed.

(** ** Files that contain the reference string *)

(** The cleanup example of the specification: the two files of the
    attachment go, the file of the other attachment stays. *)
Lemma DelFromHost_cleanup_example :
  (DelFromHost serverConf exampleArgs (hostWithFiles exampleFiles)).2.(sockDir)
  = Some {[ "999999999999-eth1.sock" ]}.
Proof. vm_compute. reflexivity. Qed.

(** C5 fails on the code.  The test is a regular-expression search, which
    finds the reference string anywhere in a name: the file
    "old-abc123def456-eth0.sock", which does not start with the reference
    string "abc123def456-eth0", is removed with the two files that do. *)
Theorem DelFromHost_removes_file_not_prefixed :
  fileBaseNameOf exampleArgs = "abc123def456-eth0" /\
  hasPrefix (fileBaseNameOf exampleArgs) "old-abc123def456-eth0.sock" = false /\
  "old-abc123def456-eth0.sock" ∈ exampleFilesAndOld /\
  (DelFromHost serverConf exampleArgs (hostWithFiles exampleFilesAndOld)).1
    = Returns (nil_error, serverConf) /\
  (DelFromHost serverConf exampleArgs (hostWithFiles exampleFilesAndOld)).2.(sockDir)
    = Some {[ "999999999999-eth1.sock" ]}.
Proof.
  split; [reflexivity |]. split; [reflexivity |].
  split; [apply elem_of_union_l, elem_of_singleton; reflexivity |].
  split; vm_compute; reflexivity.
Qed.

(** ** A MAC query that fails *)

(** Whenever the MAC query fails and [AddOnHost] returns [nil], the record
    it saved has an empty [VhostMac]. *)
Lemma AddOnHost_mac_query_failure conf args ip w c w' :
  op_getVhostPortMac ∈ w.(failing) ->
  AddOnHost conf args ip w = (Returns (nil_error, c), w') ->
  exists d, w'.(saved) !! identity args = Some d /\ d.(VhostMac) = "".
Proof.
  intros Hf H. apply AddOnHost_nil_inv in H as (w1 & w2 & d & Hbr & Hdev & ->).
  assert (Hf1 : op_getVhostPortMac ∈ w1.(failing)).
  { rewrite addLocalNetworkBridge_eq in Hbr. cbv zeta in Hbr.
    destruct (bool_decide (_ ∈ w.(bridges))); [injection Hbr as <-; exact Hf |].
    destruct (bool_decide (op_createBridge ∈ w.(failing))); [discriminate Hbr |].
    injection Hbr as <-. exact Hf. }
  destruct (addLocalDeviceVhost_mac_query_failure _ _ _ _ _ _ Hf1 Hdev) as [_ Hmac].
  exists d. split; [simpl; apply lookup_insert_eq | exact (Hmac d eq_refl)].
Qed.

(** C7 fails on the code.  With the vswitch failing to report the MAC of
    the port it has just created, [AddOnHost] returns [nil] and saves a
    record whose [VhostMac] is empty. *)
Theorem AddOnHost_swallows_mac_query_failure :
  getVhostPortMac "abc123def456-eth0"
      (AddOnHost serverConf exampleArgs noIPs hostMacQueryFails).2
    = (Returns ("", Some (VswitchOperationFailed op_getVhostPortMac)),
       (AddOnHost serverConf exampleArgs noIPs hostMacQueryFails).2) /\
  (AddOnHost serverConf exampleArgs noIPs hostMacQueryFails).1
    = Returns (nil_error, serverConf) /\
  (AddOnHost serverConf exampleArgs noIPs hostMacQueryFails).2.(saved)
      !! identity exampleArgs
    = Some {| Vhostname := "abc123def456-eth0"; VhostMac := ""; IfMac := "02:02:03:04:05:06" |} /\
  is_Some ((AddOnHost serverConf exampleArgs noIPs hostMacQueryFails).2.(ports)
             !! "abc123def456-eth0").
Proof.
  split; [apply getVhostPortMac_failing; vm_compute; apply list_elem_of_here |].
  split; [vm_compute; reflexivity |].
  split; [vm_compute; reflexivity |].
  vm_compute. eexists. reflexivity.
Qed.

(** * Properties of the whole calls *)

(** ** What [AddOnHost] leaves alone *)

(** What [addLocalDeviceVhost] changes of the host: the socket directory,
    the random source, and the port under the reference string. *)
Lemma addLocalDeviceVhost_frame {X} (proj : World -> X) conf args data :
  (forall d w, proj (set_sockDir d w) = proj w) ->
  (forall e w, proj (set_entropy e w) = proj w) ->
  (forall p w, proj (set_ports (insert (fileBaseNameOf args) p) w) = proj w) ->
  preserves proj (addLocalDeviceVhost conf args data).
Proof.
  intros Hd He Hp w. unfold addLocalDeviceVhost, bind at 1, slice_to.
  destruct (12 <=? String.length args.(ContainerID))%nat; [| reflexivity].
  unfold ret at 1. cbv zeta. simpl strings_Join. fold (fileBaseNameOf args).
  revert w.
  change (preserves proj
    (let* err := os_Stat DefaultSocketDir in
     let* err0 :=
       match err with
       | Some _ => if os_IsNotExist err then os_MkdirAll DefaultSocketDir 448 else ret err
       | None => ret nil_error
       end in
     match err0 with
     | Some _ => ret (err0, data)
     | None =>
         let* (vhostName, err1) :=
           createVhostPort DefaultSocketDir (fileBaseNameOf args)
             (conf.(HostConf).(VhostConf).(Mode) =? "Mode")
             (if conf.(HostConf).(NetType) =? "bridge"
              then conf.(HostConf).(BridgeConf).(BridgeName) else "") in
         match err1 with
         | None =>
             let* (vhostPortMac, err') := getVhostPortMac vhostName in
             let* mac := generateRandomMacAddress in
             ret (err1,
                  set_IfMac mac
                    (set_Vhostname vhostName
                       match err' with
                       | None => set_VhostMac vhostPortMac data
                       | Some _ => data
                       end))
         | Some _ => ret (err1, data)
         end
     end)).
  unfold os_Stat, os_MkdirAll, createVhostPort, getVhostPortMac,
    generateRandomMacAddress, rand_Read.
  repeat first
    [ apply preserves_modify; intros; first [apply Hd | apply He | apply Hp]
    | frame_step ].
Qed.

(** ** Relating the host before and after *)

Section Relates.
Context (R : World -> World -> Prop).
Hypothesis R_refl : forall w, R w w.
Hypothesis R_trans : forall w1 w2 w3, R w1 w2 -> R w2 w3 -> R w1 w3.

Lemma relates_ret {A} (a : A) : relates R (ret a).
Proof. intros w. apply R_refl. Qed.

Lemma relates_panic {A} msg : relates R (@panic A msg).
Proof. intros w. apply R_refl. Qed.

Lemma relates_gets {A} (f : World -> A) : relates R (gets f).
Proof. intros w. apply R_refl. Qed.

Lemma relates_fails c : relates R (fails c).
Proof. intros w. apply R_refl. Qed.

Lemma relates_modify (f : World -> World) : (forall w, R w (f w)) -> relates R (modify f).
Proof. intros Hf w. apply Hf. Qed.

Lemma relates_bind {A B} (c : M A) (k : A -> M B) :
  relates R c -> (forall a, relates R (k a)) -> relates R (bind c k).
Proof.
  intros Hc Hk w. unfold bind. specialize (Hc w).
  destruct (c w) as [[a | msg] w1]; simpl in *.
  - exact (R_trans _ _ _ Hc (Hk a w1)).
  - exact Hc.
Qed.

Lemma relates_slice_to s n : relates R (slice_to s n).
Proof. intros w. unfold slice_to. destruct (n <=? String.length s)%nat; apply R_refl. Qed.
End Relates.

Ltac relates_step :=
  first
    [ apply relates_ret; assumption
    | apply relates_panic; assumption
    | apply relates_gets; assumption
    | apply relates_fails; assumption
    | apply relates_slice_to; assumption
    | apply relates_bind; [assumption | | intros ?]
    | match goal with
      | |- relates _ (if ?b then _ else _) => destruct b
      | |- relates _ (match ?x with _ => _ end) => destruct x
      | |- relates _ (let (_, _) := ?x in _) => destruct x
      end ].







Lemma sockDirKeptOrCreated_refl w : sockDirKeptOrCreated w w.
Proof. left. reflexivity. Qed.

Lemma sockDirKeptOrCreated_trans w1 w2 w3 :
  sockDirKeptOrCreated w1 w2 -> sockDirKeptOrCreated w2 w3 -> sockDirKeptOrCreated w1 w3.
Proof.
  unfold sockDirKeptOrCreated. intros [H1 | [H1 H1']] [H2 | [H2 H2']].
  - left. congruence.
  - right. split; congruence.
  - right. split; congruence.
  - congruence.
Qed.

Lemma os_MkdirAll_sockDir perm : relates sockDirKeptOrCreated (os_MkdirAll DefaultSocketDir perm).
Proof.
  intros w. unfold os_MkdirAll, bind, fails, gets, modify, ret. simpl.
  destruct (bool_decide (op_MkdirAll ∈ w.(failing))); [left; reflexivity |].
  destruct w.(sockDir) eqn:Hd; [left; reflexivity |].
  right. split; [exact Hd | reflexivity].
Qed.

Lemma addLocalDeviceVhost_sockDir conf args data :
  relates sockDirKeptOrCreated (addLocalDeviceVhost conf args data).
Proof.
  pose proof sockDirKeptOrCreated_refl as Hrefl.
  pose proof sockDirKeptOrCreated_trans as Htrans.
  unfold addLocalDeviceVhost, os_Stat, createVhostPort, getVhostPortMac,
    generateRandomMacAddress, rand_Read.
  repeat first
    [ apply os_MkdirAll_sockDir
    | apply relates_modify; intros w; exact (Hrefl w)
    | relates_step ].
Qed.

Lemma AddOnHost_sockDir conf args ip : relates sockDirKeptOrCreated (AddOnHost conf args ip).
Proof.
  pose proof sockDirKeptOrCreated_refl as Hrefl.
  pose proof sockDirKeptOrCreated_trans as Htrans.
  rewrite AddOnHost_unfold. unfold AddOnHost_body, createStep.
  apply relates_bind; [assumption | |].
  { unfold addLocalNetworkBridge, findBridge, createBridge.
    repeat first [apply relates_modify; intros w; exact (Hrefl w) | relates_step]. }
  intros [e |]; [relates_step |].
  apply relates_bind; [assumption | |].
  { destruct (_ =? _); [apply addLocalDeviceVhost_sockDir | relates_step]. }
  intros [[e |] d]; [relates_step |].
  unfold SaveConfig.
  repeat first [apply relates_modify; intros w; exact (Hrefl w) | relates_step].
Qed.

Lemma AddOnHost_frame {X} (proj : World -> X) conf args ip :
  (forall f w, proj (set_bridges f w) = proj w) ->
  (forall d w, proj (set_sockDir d w) = proj w) ->
  (forall e w, proj (set_entropy e w) = proj w) ->
  (forall p w, proj (set_ports (insert (fileBaseNameOf args) p) w) = proj w) ->
  (forall d w, proj (set_saved (insert (identity args) d) w) = proj w) ->
  preserves proj (AddOnHost conf args ip).
Proof.
  intros Hb Hd He Hp Hs.
  rewrite AddOnHost_unfold. unfold AddOnHost_body, createStep.
  apply preserves_bind.
  { unfold addLocalNetworkBridge, findBridge, createBridge.
    repeat first [apply preserves_modify; intros; apply Hb | frame_step]. }
  intros [e |]; [frame |].
  apply preserves_bind.
  { destruct (_ =? _); [apply addLocalDeviceVhost_frame; assumption | frame]. }
  intros [[e |] d]; [frame |].
  unfold SaveConfig.
  repeat first [apply preserves_modify; intros; apply Hs | frame_step].
Qed.

(** X1: [AddOnHost] touches nothing but its own attachment: whatever its
    outcome, the ports under other names and the records of other
    identities are as before, no bridge is removed, the files of the socket
    directory are as before (the directory is created, empty, when it is
    missing), and the vswitch and the failing calls are the same. *)
Theorem AddOnHost_isolation :
  forall (conf : NetConf) (args : CmdArgs) (ip : Result) (w : World),
    let w' := (AddOnHost conf args ip w).2 in
    (forall k, k <> fileBaseNameOf args -> w'.(ports) !! k = w.(ports) !! k) /\
    (forall id, id <> identity args -> w'.(saved) !! id = w.(saved) !! id) /\
    w.(bridges) ⊆ w'.(bridges) /\
    sockDirKeptOrCreated w w' /\
    w'.(failing) = w.(failing) /\
    w'.(vswitchMac) = w.(vswitchMac).
Proof.
  intros conf args ip w w'. subst w'.
  split.
  { intros k Hk.
    apply (AddOnHost_frame (fun w0 => w0.(ports) !! k)); intros; simpl; try reflexivity.
    apply lookup_insert_ne. congruence. }
  split.
  { intros id Hid.
    apply (AddOnHost_frame (fun w0 => w0.(saved) !! id)); intros; simpl; try reflexivity.
    apply lookup_insert_ne. congruence. }
  split.
  { destruct (AddOnHost_bridges conf args ip w) as [-> | [_ ->]].
    - reflexivity.
    - apply union_subseteq_r. }
  split; [apply AddOnHost_sockDir |].
  split.
  - apply (AddOnHost_frame failing); intros; reflexivity.
  - apply (AddOnHost_frame vswitchMac); intros; reflexivity.
Qed.

Lemma delLocalDeviceVhost_frame {X} (proj : World -> X) conf args data :
  (forall d w, proj (set_sockDir d w) = proj w) ->
  (forall br w,
     proj (set_ports (deletePortFrom data.(Vhostname) br) w) = proj w) ->
  preserves proj (delLocalDeviceVhost conf args data).
Proof.
  intros Hd Hp.
  unfold delLocalDeviceVhost, deleteVhostPort, os_Open, slice_to, Readdirnames, os_Remove.
  repeat first
    [ apply removeMatchingFiles_frame; intros; apply Hd
    | apply preserves_modify; intros; first [apply Hd | apply (Hp _)]
    | frame_step ].
Qed.

Lemma DelFromHost_body_frame {X} (proj : World -> X) conf args data :
  (forall f w, proj (set_bridges f w) = proj w) ->
  (forall d w, proj (set_sockDir d w) = proj w) ->
  (forall br w,
     proj (set_ports (deletePortFrom data.(Vhostname) br) w) = proj w) ->
  preserves proj (DelFromHost_body conf args data).
Proof.
  intros Hb Hd Hp. unfold DelFromHost_body, deleteStep.
  apply preserves_bind.
  { destruct (_ =? _); [apply delLocalDeviceVhost_frame; assumption | frame]. }
  intros [e |]; [frame |].
  unfold delLocalNetworkBridge, doesBridgeContainInterfaces, deleteBridge.
  repeat first [apply preserves_modify; intros; apply Hb | frame_step].
Qed.

Lemma deletePortFrom_other vhostName br (ps : gmap string Port) k :
  k <> vhostName -> deletePortFrom vhostName br ps !! k = ps !! k.
Proof.
  intros Hk. unfold deletePortFrom.
  destruct (ps !! vhostName) as [p |]; [| reflexivity].
  destruct (bool_decide (port_bridge p = br)); [| reflexivity].
  apply lookup_delete_ne. congruence.
Qed.



Lemma DelFromHost_without_record_eq conf args w :
  w.(saved) !! identity args = None ->
  DelFromHost conf args w = (Returns (Some ConfigNotFound, conf), w).
Proof.
  intros Hd. rewrite DelFromHost_unfold. unfold bind. rewrite LoadConfig_eq, Hd. reflexivity.
Qed.

Lemma DelFromHost_other_ports conf args w k :
  (forall d, w.(saved) !! identity args = Some d -> k <> d.(Vhostname)) ->
  (DelFromHost conf args w).2.(ports) !! k = w.(ports) !! k.
Proof.
  intros Hk. destruct (w.(saved) !! identity args) as [d |] eqn:Hd.
  - rewrite (DelFromHost_loaded _ _ d _ Hd).
    rewrite (DelFromHost_body_frame (fun w0 => w0.(ports) !! k)); [reflexivity | | |];
      intros; simpl; try reflexivity.
    apply deletePortFrom_other. exact (Hk d eq_refl).
  - rewrite (DelFromHost_without_record_eq _ _ _ Hd). reflexivity.
Qed.





(** ** A successful [AddOnHost], and the [DelFromHost] that undoes it *)

Lemma generateRandomMacAddress_run w :
  generateRandomMacAddress w
  = (Returns (macOfEntropy w.(entropy)), set_entropy (restOfEntropy w.(entropy)) w).
Proof.
  unfold generateRandomMacAddress, rand_Read, macOfEntropy, restOfEntropy,
    bind, gets, modify, ret.
  destruct (6 <=? length w.(entropy))%nat; [reflexivity |].
  destruct w; reflexivity.
Qed.

Lemma addLocalNetworkBridge_ok conf args data w :
  op_createBridge ∉ w.(failing) ->
  addLocalNetworkBridge conf args data w
  = (Returns nil_error,
     set_bridges (fun bs => {[ conf.(HostConf).(BridgeConf).(BridgeName) ]} ∪ bs) w).
Proof.
  intros Hnf. rewrite addLocalNetworkBridge_eq. cbv zeta.
  rewrite (bool_decide_eq_false_2 _ Hnf).
  destruct (bool_decide (_ ∈ w.(bridges))) eqn:Hin; [| reflexivity].
  apply bool_decide_eq_true in Hin. f_equal.
  destruct w as [bs ps sd sv vm en fl]; unfold set_bridges; simpl in *. f_equal.
  symmetry. apply subseteq_union_1_L, singleton_subseteq_l. exact Hin.
Qed.

Lemma ensureSockDir_ok w :
  op_Stat ∉ w.(failing) ->
  op_MkdirAll ∉ w.(failing) ->
  (let* err := os_Stat DefaultSocketDir in
   match err with
   | Some _ => if os_IsNotExist err then os_MkdirAll DefaultSocketDir 448 else ret err
   | None => ret nil_error
   end) w
  = (Returns nil_error, set_sockDir (Some (default ∅ w.(sockDir))) w).
Proof.
  intros Hs Hm. unfold os_Stat, os_MkdirAll, bind, fails, gets, modify, ret. simpl.
  rewrite (bool_decide_eq_false_2 _ Hs).
  destruct w.(sockDir) as [fs |] eqn:Hd; simpl.
  - rewrite set_sockDir_same by exact Hd. reflexivity.
  - rewrite (bool_decide_eq_false_2 _ Hm), Hd. reflexivity.
Qed.

Lemma getVhostPortMac_ok vhostName p w :
  op_getVhostPortMac ∉ w.(failing) ->
  w.(ports) !! vhostName = Some p ->
  getVhostPortMac vhostName w = (Returns (p.(port_mac), nil_error), w).
Proof.
  intros Hnf Hp. unfold getVhostPortMac, bind, fails, gets, ret. simpl.
  rewrite (bool_decide_eq_false_2 _ Hnf), Hp. reflexivity.
Qed.

Lemma addLocalDeviceVhost_ok conf args data w :
  (12 <= String.length args.(ContainerID))%nat ->
  op_Stat ∉ w.(failing) ->
  op_MkdirAll ∉ w.(failing) ->
  op_createVhostPort ∉ w.(failing) ->
  op_getVhostPortMac ∉ w.(failing) ->
  addLocalDeviceVhost conf args data w
  = (Returns (nil_error,
              set_IfMac (macOfEntropy w.(entropy))
                (set_Vhostname (fileBaseNameOf args) (set_VhostMac w.(vswitchMac) data))),
     set_entropy (restOfEntropy w.(entropy))
       (set_ports (insert (fileBaseNameOf args)
          {| port_bridge :=
               if conf.(HostConf).(NetType) =? "bridge"
               then conf.(HostConf).(BridgeConf).(BridgeName) else "";
             port_socketDir := DefaultSocketDir;
             port_socketRef := fileBaseNameOf args;
             port_clientMode := conf.(HostConf).(VhostConf).(Mode) =? "Mode";
             port_mac := w.(vswitchMac) |})
          (set_sockDir (Some (default ∅ w.(sockDir))) w))).
Proof.
  intros Hlen Hs Hm Hc Hg. unfold addLocalDeviceVhost.
  rewrite (bind_Returns _ _ _ _ _ (slice_to_ok _ _ w Hlen)). cbv zeta.
  simpl strings_Join. fold (fileBaseNameOf args).
  assert (Hstat : exists e1 w0, os_Stat DefaultSocketDir w = (Returns e1, w0) /\
            match e1 with
            | Some _ => if os_IsNotExist e1 then os_MkdirAll DefaultSocketDir 448 else ret e1
            | None => ret nil_error
            end w0 = (Returns nil_error, set_sockDir (Some (default ∅ w.(sockDir))) w)).
  { pose proof (ensureSockDir_ok w Hs Hm) as H. unfold bind in H.
    destruct (os_Stat DefaultSocketDir w) as [[e1 | msg] w0] eqn:E.
    - exists e1, w0. split; [reflexivity | exact H].
    - discriminate H. }
  destruct Hstat as (e1 & w0 & Hstat & Hmk).
  rewrite (bind_Returns _ _ _ _ _ Hstat).
  rewrite (bind_Returns _ _ _ _ _ Hmk). cbn beta iota.
  set (w1 := set_sockDir _ w).
  unfold bind at 1. rewrite createVhostPort_eq.
  change (w1.(failing)) with (w.(failing)).
  rewrite (bool_decide_eq_false_2 _ Hc). cbn beta iota.
  set (w2 := set_ports _ w1).
  assert (Hmac : getVhostPortMac (fileBaseNameOf args) w2
                 = (Returns (w.(vswitchMac), nil_error), w2)).
  { refine (getVhostPortMac_ok _ {| port_mac := w.(vswitchMac) |} w2 Hg _).
    unfold w2. simpl. apply lookup_insert_eq. }
  rewrite (bind_Returns _ _ _ _ _ Hmac). cbn beta iota zeta.
  rewrite (bind_Returns _ _ _ _ _ (generateRandomMacAddress_run w2)).
  reflexivity.
Qed.

Lemma AddOnHost_before_save conf args ip w :
  conf.(HostConf).(IfType) = "vhostuser" ->
  (12 <= String.length args.(ContainerID))%nat ->
  (forall c, c ∈ addCalls -> c <> op_SaveConfig -> c ∉ w.(failing)) ->
  AddOnHost conf args ip w
  = (let* err := SaveConfig (normalized conf) args (recordOf args w) in
     ret (err, normalized conf)) (hostBeforeSave conf args w).
Proof.
  intros Hif Hlen Hnf.
  assert (Hin : forall c, In c addCalls -> c <> op_SaveConfig -> c ∉ w.(failing)).
  { intros c Hc. apply Hnf. apply list_elem_of_In. exact Hc. }
  assert (Hbr : op_createBridge ∉ w.(failing))
    by (apply Hin; [simpl; tauto | discriminate]).
  assert (Hst : op_Stat ∉ w.(failing)) by (apply Hin; [simpl; tauto | discriminate]).
  assert (Hmk : op_MkdirAll ∉ w.(failing)) by (apply Hin; [simpl; tauto | discriminate]).
  assert (Hcp : op_createVhostPort ∉ w.(failing))
    by (apply Hin; [simpl; tauto | discriminate]).
  assert (Hgm : op_getVhostPortMac ∉ w.(failing))
    by (apply Hin; [simpl; tauto | discriminate]).
  rewrite AddOnHost_unfold. unfold AddOnHost_body, createStep.
  rewrite (bind_Returns _ _ _ _ _
             (addLocalNetworkBridge_ok (normalized conf) args zeroSavedData w Hbr)).
  cbn beta iota. rewrite IfType_normalized, Hif.
  change ("vhostuser" =? "vhostuser") with true. cbn beta iota.
  set (w1 := set_bridges _ w).
  rewrite (bind_Returns _ _ _ _ _
             (addLocalDeviceVhost_ok (normalized conf) args zeroSavedData w1 Hlen
                Hst Hmk Hcp Hgm)).
  cbn beta iota. rewrite NetType_normalized, Mode_normalized.
  change ("bridge" =? "bridge") with true. cbn iota.
  reflexivity.
Qed.

Lemma AddOnHost_ok conf args ip w :
  conf.(HostConf).(IfType) = "vhostuser" ->
  (12 <= String.length args.(ContainerID))%nat ->
  (forall c, c ∈ addCalls -> c ∉ w.(failing)) ->
  AddOnHost conf args ip w
  = (Returns (nil_error, normalized conf), hostAfterAddOnHost conf args w).
Proof.
  intros Hif Hlen Hnf.
  rewrite (AddOnHost_before_save conf args ip w Hif Hlen (fun c Hc _ => Hnf c Hc)).
  unfold bind. rewrite SaveConfig_eq.
  change ((hostBeforeSave conf args w).(failing)) with (w.(failing)).
  rewrite bool_decide_eq_false_2; [reflexivity |].
  apply Hnf. apply list_elem_of_In. simpl. tauto.
Qed.





(** X4: A successful [AddOnHost]: the bridge exists, the port is made on it
    with its socket in the default directory, the directory exists, and the
    record saved for the attachment names the port and carries the MAC
    address the vswitch gave it. *)
Theorem AddOnHost_success :
  forall (conf : NetConf) (args : CmdArgs) (ip : Result) (w : World),
    conf.(HostConf).(IfType) = "vhostuser" ->
    (12 <= String.length args.(ContainerID))%nat ->
    (forall c, c ∈ addCalls -> c ∉ w.(failing)) ->
    exists w',
      AddOnHost conf args ip w = (Returns (nil_error, normalized conf), w') /\
      ((normalized conf).(HostConf).(BridgeConf).(BridgeName) ∈ w'.(bridges)) /\
      w'.(ports) !! fileBaseNameOf args
        = Some {| port_bridge := (normalized conf).(HostConf).(BridgeConf).(BridgeName);
                  port_socketDir := DefaultSocketDir;
                  port_socketRef := fileBaseNameOf args;
                  port_clientMode := conf.(HostConf).(VhostConf).(Mode) =? "Mode";
                  port_mac := w.(vswitchMac) |} /\
      w'.(saved) !! identity args
        = Some {| Vhostname := fileBaseNameOf args;
                  VhostMac := w.(vswitchMac);
                  IfMac := macOfEntropy w.(entropy) |} /\
      w'.(sockDir) = Some (default ∅ w.(sockDir)).
Proof.
  intros conf args ip w Hif Hlen Hnf.
  exists (hostAfterAddOnHost conf args w).
  split; [apply AddOnHost_ok; assumption |].
  split; [apply elem_of_union_l, elem_of_singleton; reflexivity |].
  split; [apply lookup_insert_eq |].
  split; [apply lookup_insert_eq | reflexivity].
Qed.

Lemma AddOnHost_success_witness :
  exists w',
    AddOnHost serverConf exampleArgs noIPs emptyHost
      = (Returns (nil_error, normalized serverConf), w') /\
    ("br0" ∈ w'.(bridges)) /\
    w'.(ports) !! "abc123def456-eth0"
      = Some {| port_bridge := "br0";
                port_socketDir := DefaultSocketDir;
                port_socketRef := "abc123def456-eth0";
                port_clientMode := false;
                port_mac := "00:00:00:00:00:01" |} /\
    w'.(saved) !! identity exampleArgs = Some exampleSavedData /\
    w'.(sockDir) = Some ∅.
Proof.
  apply (AddOnHost_success serverConf exampleArgs noIPs emptyHost).
  - reflexivity.
  - simpl. lia.
  - intros c _. apply not_elem_of_nil.
Defined.

(** X5: A record that cannot be saved is reported, and nothing is undone: the
    bridge and the port made for the attachment stay on the vswitch, with
    no record to delete them by. *)
Theorem AddOnHost_store_failure :
  forall (conf : NetConf) (args : CmdArgs) (ip : Result) (w : World),
    conf.(HostConf).(IfType) = "vhostuser" ->
    (12 <= String.length args.(ContainerID))%nat ->
    (forall c, c ∈ addCalls -> c <> op_SaveConfig -> c ∉ w.(failing)) ->
    op_SaveConfig ∈ w.(failing) ->
    exists w',
      AddOnHost conf args ip w = (Returns (Some StoreWriteFailed, normalized conf), w') /\
      ((normalized conf).(HostConf).(BridgeConf).(BridgeName) ∈ w'.(bridges)) /\
      is_Some (w'.(ports) !! fileBaseNameOf args) /\
      w'.(saved) = w.(saved).
Proof.
  intros conf args ip w Hif Hlen Hnf Hsv.
  exists (hostBeforeSave conf args w).
  rewrite (AddOnHost_before_save conf args ip w Hif Hlen Hnf).
  unfold bind. rewrite SaveConfig_eq.
  change ((hostBeforeSave conf args w).(failing)) with (w.(failing)).
  rewrite (bool_decide_eq_true_2 _ Hsv).
  split; [reflexivity |].
  split; [apply elem_of_union_l, elem_of_singleton; reflexivity |].
  split; [| reflexivity].
  eexists. apply lookup_insert_eq.
Qed.

Lemma AddOnHost_store_failure_witness :
  exists w',
    AddOnHost serverConf exampleArgs noIPs hostStoreFails
      = (Returns (Some StoreWriteFailed, normalized serverConf), w') /\
    ("br0" ∈ w'.(bridges)) /\
    is_Some (w'.(ports) !! "abc123def456-eth0") /\
    w'.(saved) = ∅.
Proof.
  apply (AddOnHost_store_failure serverConf exampleArgs noIPs hostStoreFails).
  - reflexivity.
  - simpl. lia.
  - intros c _ Hc Hin. apply list_elem_of_singleton in Hin. exact (Hc Hin).
  - apply list_elem_of_here.
Defined.



(** X7: When the bridge is missing and cannot be created, [AddOnHost] returns
    the error of the creation and does nothing else, whatever the
    interface type and the container ID. *)
Theorem AddOnHost_bridge_creation_failure :
  forall (conf : NetConf) (args : CmdArgs) (ip : Result) (w : World),
    (normalized conf).(HostConf).(BridgeConf).(BridgeName) ∉ w.(bridges) ->
    op_createBridge ∈ w.(failing) ->
    AddOnHost conf args ip w
    = (Returns (Some (VswitchOperationFailed op_createBridge), normalized conf), w).
Proof.
  intros conf args ip w Hb Hf.
  rewrite AddOnHost_unfold. unfold AddOnHost_body, bind.
  rewrite addLocalNetworkBridge_eq. cbv zeta.
  rewrite (bool_decide_eq_false_2 _ Hb), (bool_decide_eq_true_2 _ Hf). reflexivity.
Qed.

Lemma AddOnHost_bridge_creation_failure_witness :
  AddOnHost dpdkvirtioConf exampleArgs noIPs hostCreateBridgeFails
  = (Returns (Some (VswitchOperationFailed op_createBridge), normalized dpdkvirtioConf),
     hostCreateBridgeFails).
Proof.
  apply (AddOnHost_bridge_creation_failure dpdkvirtioConf exampleArgs noIPs
           hostCreateBridgeFails).
  - apply not_elem_of_empty.
  - apply list_elem_of_here.
Defined.

Lemma AddOnHost_bridge_present conf args ip w :
  (forall c, (AddOnHost conf args ip w).1
             <> Returns (Some (VswitchOperationFailed op_createBridge), c)) ->
  (normalized conf).(HostConf).(BridgeConf).(BridgeName)
    ∈ (AddOnHost conf args ip w).2.(bridges).
Proof.
  intros Hne.
  rewrite AddOnHost_unfold in *. rewrite AddOnHost_body_bridges.
  unfold AddOnHost_body, bind in Hne.
  rewrite addLocalNetworkBridge_eq in *. cbv zeta in *.
  destruct (bool_decide (_ ∈ w.(bridges))) eqn:Hin.
  - apply bool_decide_eq_true in Hin. exact Hin.
  - destruct (bool_decide (op_createBridge ∈ w.(failing))).
    + exfalso. exact (Hne _ eq_refl).
    + simpl. apply elem_of_union_l, elem_of_singleton. reflexivity.
Qed.

(** X8: Nothing [AddOnHost] does after the bridge step undoes it: unless the
    call returns the error of the bridge creation, the bridge exists when
    it ends, also when a later step fails or panics. *)
Theorem AddOnHost_bridge_remains :
  forall (conf : NetConf) (args : CmdArgs) (ip : Result) (w : World),
    (forall c, (AddOnHost conf args ip w).1
               <> Returns (Some (VswitchOperationFailed op_createBridge), c)) ->
    (normalized conf).(HostConf).(BridgeConf).(BridgeName)
      ∈ (AddOnHost conf args ip w).2.(bridges).
Proof. intros conf args ip w. apply AddOnHost_bridge_present. Qed.

Lemma AddOnHost_bridge_remains_witness :
  "br0" ∈ (AddOnHost serverConf exampleArgs noIPs hostCreatePortFails).2.(bridges).
Proof.
  apply (AddOnHost_bridge_remains serverConf exampleArgs noIPs hostCreatePortFails).
  intros c. vm_compute. discriminate.
Defined.

(** ** Container IDs shorter than twelve characters *)

Lemma createStep_short_id conf args w :
  (String.length args.(ContainerID) < 12)%nat ->
  createStep conf args w =
    if conf.(HostConf).(IfType) =? "vhostuser"
    then (Panics "slice bounds out of range", w)
    else (Returns (errors_New ("ERROR: Unknown HostConf.IfType:" +:+ conf.(HostConf).(IfType)),
                   zeroSavedData), w).
Proof.
  intros Hlen. unfold createStep.
  destruct (conf.(HostConf).(IfType) =? "vhostuser"); [| reflexivity].
  unfold addLocalDeviceVhost, bind, slice_to.
  rewrite (proj2 (Nat.leb_gt 12 _) Hlen). reflexivity.
Qed.

Lemma AddOnHost_body_short_id conf args w :
  (String.length args.(ContainerID) < 12)%nat ->
  (conf.(HostConf).(BridgeConf).(BridgeName) ∈ w.(bridges)) \/
    (op_createBridge ∉ w.(failing)) ->
  AddOnHost_body conf args w =
    let w1 := set_bridges (fun bs => {[ conf.(HostConf).(BridgeConf).(BridgeName) ]} ∪ bs) w in
    if conf.(HostConf).(IfType) =? "vhostuser"
    then (Panics "slice bounds out of range", w1)
    else (Returns (errors_New ("ERROR: Unknown HostConf.IfType:" +:+ conf.(HostConf).(IfType)),
                   conf), w1).
Proof.
  intros Hlen Hbr. cbv zeta.
  assert (Hadd : addLocalNetworkBridge conf args zeroSavedData w
                 = (Returns nil_error,
                    set_bridges
                      (fun bs => {[ conf.(HostConf).(BridgeConf).(BridgeName) ]} ∪ bs) w)).
  { rewrite addLocalNetworkBridge_eq. cbv zeta.
    destruct (bool_decide (_ ∈ w.(bridges))) eqn:Hin.
    - apply bool_decide_eq_true in Hin. f_equal.
      destruct w as [bs ps sd sv vm en fl]; unfold set_bridges; simpl in *. f_equal.
      symmetry. apply subseteq_union_1_L, singleton_subseteq_l. exact Hin.
    - apply bool_decide_eq_false in Hin. destruct Hbr as [Hbr | Hbr]; [contradiction |].
      rewrite (bool_decide_eq_false_2 _ Hbr). reflexivity. }
  unfold AddOnHost_body.
  rewrite (bind_Returns _ _ _ _ _ Hadd). cbn beta iota.
  unfold bind. rewrite (createStep_short_id _ _ _ Hlen).
  destruct (conf.(HostConf).(IfType) =? "vhostuser"); reflexivity.
Qed.

(** X9: [AddOnHost] panics exactly when it comes to slice a container ID of
    fewer than twelve characters: for a vhost-user interface, once the
    bridge step has passed.  On every other request it returns. *)
Theorem AddOnHost_panics_iff :
  forall (conf : NetConf) (args : CmdArgs) (ip : Result) (w : World),
    (exists msg, (AddOnHost conf args ip w).1 = Panics msg) <->
    (conf.(HostConf).(IfType) = "vhostuser" /\
     (String.length args.(ContainerID) < 12)%nat /\
     (((normalized conf).(HostConf).(BridgeConf).(BridgeName) ∈ w.(bridges)) \/
      (op_createBridge ∉ w.(failing)))).
Proof.
  intros conf args ip w. rewrite AddOnHost_unfold.
  destruct (Nat.le_gt_cases 12 (String.length args.(ContainerID))) as [Hlen | Hlen].
  { destruct (AddOnHost_body_returns (normalized conf) args Hlen w) as (e & w' & ->).
    split; [intros [msg H]; discriminate H | intros (_ & H & _); lia]. }
  destruct (decide ((normalized conf).(HostConf).(BridgeConf).(BridgeName) ∈ w.(bridges)
                    \/ op_createBridge ∉ w.(failing))) as [Hbr | Hbr].
  - rewrite (AddOnHost_body_short_id _ _ _ Hlen Hbr). cbv zeta.
    rewrite IfType_normalized.
    destruct (conf.(HostConf).(IfType) =? "vhostuser") eqn:Hif.
    + apply String.eqb_eq in Hif.
      split; [intros _; repeat split; assumption | intros _; eexists; reflexivity].
    + apply String.eqb_neq in Hif.
      split; [intros [msg H]; discriminate H | intros (H & _); contradiction].
  - unfold AddOnHost_body, bind. rewrite addLocalNetworkBridge_eq. cbv zeta.
    rewrite bool_decide_eq_false_2 by (intros H; apply Hbr; left; exact H).
    rewrite bool_decide_eq_true_2
      by (destruct (decide (op_createBridge ∈ w.(failing))) as [H | H];
          [exact H | exfalso; apply Hbr; right; exact H]).
    split; [intros [msg H]; discriminate H | intros (_ & _ & H); contradiction].
Qed.

Lemma os_Open_eq w :
  os_Open DefaultSocketDir w =
    if bool_decide (op_Open ∈ w.(failing))
    then (Returns (DefaultSocketDir, Some (FilesystemError op_Open)), w)
    else match w.(sockDir) with
         | None => (Returns (DefaultSocketDir, Some ErrNotExist), w)
         | Some _ => (Returns (DefaultSocketDir, nil_error), w)
         end.
Proof.
  unfold os_Open, bind, fails, gets, ret. simpl.
  destruct (bool_decide (op_Open ∈ w.(failing))); [reflexivity |].
  destruct w.(sockDir); reflexivity.
Qed.

Lemma delLocalDeviceVhost_no_directory conf args data w :
  op_deleteVhostPort ∉ w.(failing) ->
  op_Open ∉ w.(failing) ->
  w.(sockDir) = None ->
  delLocalDeviceVhost conf args data w =
    (Returns (Some ErrNotExist),
     set_ports (deletePortFrom data.(Vhostname)
                  (if conf.(HostConf).(NetType) =? "bridge"
                   then conf.(HostConf).(BridgeConf).(BridgeName) else "")) w).
Proof.
  intros Hdel Hopen Hd. unfold delLocalDeviceVhost.
  rewrite (bind_Returns _ _ _ _ _ (deleteVhostPort_ok _ _ _ Hdel)). cbn beta iota zeta.
  unfold bind. rewrite os_Open_eq.
  rewrite bool_decide_eq_false_2 by exact Hopen.
  change (sockDir (set_ports _ w)) with (sockDir w). rewrite Hd. reflexivity.
Qed.

Lemma delLocalDeviceVhost_short_id conf args data w :
  (String.length args.(ContainerID) < 12)%nat ->
  (exists msg, (delLocalDeviceVhost conf args data w).1 = Panics msg) <->
  ((op_deleteVhostPort ∉ w.(failing)) /\ (op_Open ∉ w.(failing)) /\ is_Some w.(sockDir)).
Proof.
  intros Hlen. unfold delLocalDeviceVhost.
  destruct (decide (op_deleteVhostPort ∈ w.(failing))) as [Hdel | Hdel].
  { rewrite (bind_Returns _ _ _ _ _ (deleteVhostPort_failing _ _ _ Hdel)). simpl.
    split; [intros [msg H]; discriminate H | intros (H & _); contradiction]. }
  rewrite (bind_Returns _ _ _ _ _ (deleteVhostPort_ok _ _ _ Hdel)). cbn beta iota zeta.
  unfold bind at 1. rewrite os_Open_eq.
  change (failing (set_ports _ w)) with (failing w).
  change (sockDir (set_ports _ w)) with (sockDir w).
  destruct (bool_decide (op_Open ∈ w.(failing))) eqn:Hopen.
  { apply bool_decide_eq_true in Hopen. simpl.
    split; [intros [msg H]; discriminate H | intros (_ & H & _); contradiction]. }
  apply bool_decide_eq_false in Hopen.
  destruct w.(sockDir) as [files |] eqn:Hd.
  - cbn beta iota. unfold bind, slice_to.
    rewrite (proj2 (Nat.leb_gt 12 _) Hlen). simpl.
    split; [intros _; repeat split; [exact Hdel | exact Hopen | eexists; reflexivity]
           | intros _; eexists; reflexivity].
  - simpl. split; [intros [msg H]; discriminate H |].
    intros (_ & _ & [x H]). discriminate H.
Qed.

(** X10: [DelFromHost] panics exactly when it comes to slice a container ID of
    fewer than twelve characters: there is a record for the attachment, the
    interface type is vhost-user, the port deletion succeeded and the socket
    directory was opened.  On every other request it returns. *)
Theorem DelFromHost_panics_iff :
  forall (conf : NetConf) (args : CmdArgs) (w : World),
    (exists msg, (DelFromHost conf args w).1 = Panics msg) <->
    (is_Some (w.(saved) !! identity args) /\
     conf.(HostConf).(IfType) = "vhostuser" /\
     (String.length args.(ContainerID) < 12)%nat /\
     (op_deleteVhostPort ∉ w.(failing)) /\
     (op_Open ∉ w.(failing)) /\
     is_Some w.(sockDir)).
Proof.
  intros conf args w.
  destruct (w.(saved) !! identity args) as [d |] eqn:Hd.
  2: { rewrite (DelFromHost_without_record_eq _ _ _ Hd). simpl.
       split; [intros [msg H]; discriminate H | intros ([x H] & _); discriminate H]. }
  rewrite (DelFromHost_loaded _ _ d _ Hd).
  set (w0 := set_saved (delete (identity args)) w).
  destruct (Nat.le_gt_cases 12 (String.length args.(ContainerID))) as [Hlen | Hlen].
  { destruct (DelFromHost_body_returns (normalized conf) args d Hlen w0) as (e & w' & ->).
    split; [intros [msg H]; discriminate H | intros (_ & _ & H & _); lia]. }
  unfold DelFromHost_body, deleteStep. rewrite IfType_normalized.
  destruct (conf.(HostConf).(IfType) =? "vhostuser") eqn:Hif.
  - apply String.eqb_eq in Hif.
    pose proof (delLocalDeviceVhost_short_id (normalized conf) args d w0 Hlen) as Hp.
    change (failing w0) with (failing w) in Hp. change (sockDir w0) with (sockDir w) in Hp.
    unfold bind at 1.
    destruct (delLocalDeviceVhost (normalized conf) args d w0) as [[[e |] | msg] w1].
    + simpl in *. split; [intros [m H]; discriminate H |].
      intros (_ & _ & _ & H). apply Hp in H. destruct H as [m H]. discriminate H.
    + simpl in Hp. unfold bind.
      destruct (never_panics_delLocalNetworkBridge (normalized conf) args d w1) as [e2 H2].
      destruct (delLocalNetworkBridge (normalized conf) args d w1) as [o2 w2].
      simpl in H2. subst o2. simpl.
      split; [intros [m H]; discriminate H |].
      intros (_ & _ & _ & H). apply Hp in H. destruct H as [m H]. discriminate H.
    + simpl in *. split; [| intros _; eexists; reflexivity].
      intros _. split; [eexists; reflexivity |]. split; [exact Hif |].
      split; [exact Hlen |]. apply Hp. eexists; reflexivity.
  - apply String.eqb_neq in Hif. simpl.
    split; [intros [m H]; discriminate H | intros (_ & H & _); contradiction].
Qed.

(** X11: A [DelFromHost] that fails leaves the bridges as they are: after a
    failed deletion step the bridge is not looked at, and a bridge that
    cannot be deleted stays. *)
Theorem DelFromHost_failure_keeps_bridges :
  forall (conf : NetConf) (args : CmdArgs) (w : World),
    (forall c, (DelFromHost conf args w).1 <> Returns (nil_error, c)) ->
    (DelFromHost conf args w).2.(bridges) = w.(bridges).
Proof.
  intros conf args w Hne.
  destruct (w.(saved) !! identity args) as [d |] eqn:Hd.
  2: { rewrite (DelFromHost_without_record_eq _ _ _ Hd). reflexivity. }
  rewrite (DelFromHost_loaded _ _ d _ Hd) in *.
  set (w0 := set_saved (delete (identity args)) w) in *.
  unfold DelFromHost_body in *. unfold bind at 1. unfold bind at 1 in Hne.
  pose proof (deleteStep_bridges (normalized conf) args d w0) as Hfr.
  destruct (deleteStep (normalized conf) args d w0) as [[[e |] | msg] w1];
    simpl in Hfr; [exact Hfr | | exact Hfr].
  unfold bind in *. rewrite delLocalNetworkBridge_eq in *. cbv zeta in *.
  destruct (bool_decide (hasInterfaces _ w1)); [exact Hfr |].
  destruct (bool_decide (op_deleteBridge ∈ w1.(failing))); [exact Hfr |].
  exfalso. exact (Hne _ eq_refl).
Qed.

Lemma DelFromHost_failure_keeps_bridges_witness :
  (DelFromHost serverConf exampleArgs hostRemoveFails).2.(bridges)
  = hostRemoveFails.(bridges).
Proof.
  apply (DelFromHost_failure_keeps_bridges serverConf exampleArgs hostRemoveFails).
  intros c. vm_compute. discriminate.
Defined.

(** X12: When the socket directory is missing, [DelFromHost] has already
    deleted the port when it finds out: it returns the error of opening
    the directory and leaves the bridges as they are, whatever the length
    of the container ID. *)
Theorem DelFromHost_missing_socket_directory :
  forall (conf : NetConf) (args : CmdArgs) (d : OvsSavedData) (w : World),
    w.(saved) !! identity args = Some d ->
    conf.(HostConf).(IfType) = "vhostuser" ->
    op_deleteVhostPort ∉ w.(failing) ->
    op_Open ∉ w.(failing) ->
    w.(sockDir) = None ->
    exists w',
      DelFromHost conf args w = (Returns (Some ErrNotExist, normalized conf), w') /\
      w'.(ports) = deletePortFrom d.(Vhostname)
                     (normalized conf).(HostConf).(BridgeConf).(BridgeName) w.(ports) /\
      w'.(bridges) = w.(bridges) /\
      w'.(sockDir) = None.
Proof.
  intros conf args d w Hd Hif Hdel Hopen Hdir.
  rewrite (DelFromHost_loaded _ _ d _ Hd).
  unfold DelFromHost_body, deleteStep. rewrite IfType_normalized, Hif.
  change ("vhostuser" =? "vhostuser") with true. cbn beta iota.
  rewrite (bind_Returns _ _ _ _ _
             (delLocalDeviceVhost_no_directory (normalized conf) args d
                (set_saved (delete (identity args)) w) Hdel Hopen Hdir)).
  rewrite NetType_normalized.
  eexists. split; [reflexivity |]. simpl. repeat split. exact Hdir.
Qed.

Lemma DelFromHost_missing_socket_directory_witness :
  exists w',
    DelFromHost serverConf exampleArgs hostWithoutSocketDir
      = (Returns (Some ErrNotExist, normalized serverConf), w') /\
    w'.(ports) = deletePortFrom "abc123def456-eth0" "br0" hostWithoutSocketDir.(ports) /\
    w'.(bridges) = hostWithoutSocketDir.(bridges) /\
    w'.(sockDir) = None.
Proof.
  apply (DelFromHost_missing_socket_directory serverConf exampleArgs exampleSavedData
           hostWithoutSocketDir).
  - vm_compute. reflexivity.
  - reflexivity.
  - apply not_elem_of_nil.
  - apply not_elem_of_nil.
  - reflexivity.
Defined.

(** X13: For an interface type other than vhost-user, [DelFromHost] with a
    record at hand returns the error "ERROR: Unknown HostConf.Type:"
    followed by the type, and leaves the ports, the socket directory and
    the bridges as they are. *)
Theorem DelFromHost_unsupported_interface_type :
  forall (conf : NetConf) (args : CmdArgs) (d : OvsSavedData) (w : World),
    w.(saved) !! identity args = Some d ->
    conf.(HostConf).(IfType) <> "vhostuser" ->
    exists w',
      DelFromHost conf args w
      = (Returns (errors_New ("ERROR: Unknown HostConf.Type:" +:+ conf.(HostConf).(IfType)),
                  normalized conf), w') /\
      w'.(ports) = w.(ports) /\
      w'.(sockDir) = w.(sockDir) /\
      w'.(bridges) = w.(bridges).
Proof.
  intros conf args d w Hd Hif.
  rewrite (DelFromHost_loaded _ _ d _ Hd).
  unfold DelFromHost_body, deleteStep. rewrite IfType_normalized.
  rewrite (proj2 (String.eqb_neq _ _) Hif).
  eexists. split; [reflexivity |]. repeat split.
Qed.

Lemma DelFromHost_unsupported_interface_type_witness :
  exists w',
    DelFromHost dpdkvirtioConf exampleArgs hostAfterAdd
    = (Returns (errors_New "ERROR: Unknown HostConf.Type:dpdkvirtio",
                normalized dpdkvirtioConf), w') /\
    w'.(ports) = hostAfterAdd.(ports) /\
    w'.(sockDir) = hostAfterAdd.(sockDir) /\
    w'.(bridges) = hostAfterAdd.(bridges).
Proof.
  apply (DelFromHost_unsupported_interface_type dpdkvirtioConf exampleArgs
           exampleSavedData hostAfterAdd).
  - vm_compute. reflexivity.
  - discriminate.
Defined.

(** X14: A bridge that another port is attached to survives [DelFromHost]:
    when a port other than the one of the saved record is on the bridge of
    the request, the call leaves that port and all the bridges as they
    are, whatever its outcome. *)
Theorem DelFromHost_shared_bridge :
  forall (conf : NetConf) (args : CmdArgs) (w : World) (k : string) (p : Port),
    w.(ports) !! k = Some p ->
    p.(port_bridge) = (normalized conf).(HostConf).(BridgeConf).(BridgeName) ->
    (forall d, w.(saved) !! identity args = Some d -> k <> d.(Vhostname)) ->
    (DelFromHost conf args w).2.(ports) !! k = Some p /\
    (DelFromHost conf args w).2.(bridges) = w.(bridges).
Proof.
  intros conf args w k p Hk Hp Hother.
  assert (Hk' : (DelFromHost conf args w).2.(ports) !! k = Some p).
  { rewrite (DelFromHost_other_ports conf args w k Hother). exact Hk. }
  split; [exact Hk' |].
  destruct (DelFromHost_bridges conf args w) as [H | [Hno _]]; [exact H |].
  exfalso. apply Hno. unfold hasInterfaces. apply map_Exists_lookup.
  exists k, p. split; [exact Hk' | exact Hp].
Qed.

Lemma DelFromHost_shared_bridge_witness :
  (DelFromHost serverConf exampleArgs hostTwoAttachments).2.(ports) !! "999999999999-eth1"
    = Some otherPort /\
  (DelFromHost serverConf exampleArgs hostTwoAttachments).2.(bridges)
    = hostTwoAttachments.(bridges).
Proof.
  apply (DelFromHost_shared_bridge serverConf exampleArgs hostTwoAttachments
           "999999999999-eth1" otherPort).
  - vm_compute. reflexivity.
  - reflexivity.
  - intros d Hd. vm_compute in Hd. injection Hd as <-. discriminate.
Defined.

(** ** The text of the MAC address *)

Lemma parseOctets_Sprintf_02x (b : byte) (n : nat) (rest : string) :
  parseOctets (S n) (Sprintf_02x (byte_to_Z b) +:+ ":" +:+ rest)
  = match parseOctets n rest with
    | Some vs => Some (byte_to_Z b :: vs)
    | None => None
    end.
Proof. destruct b; reflexivity. Qed.

Lemma parseOctets_Sprintf_02x_first (b : byte) (n : nat) (rest : string) :
  parseOctets (S n) (Sprintf_02x (firstOctet (byte_to_Z b)) +:+ ":" +:+ rest)
  = match parseOctets n rest with
    | Some vs => Some (firstOctet (byte_to_Z b) :: vs)
    | None => None
    end.
Proof. destruct b; reflexivity. Qed.

Lemma parseOctets_Sprintf_02x_last (b : byte) :
  parseOctets 0 (Sprintf_02x (byte_to_Z b)) = Some [byte_to_Z b].
Proof. destruct b; reflexivity. Qed.

Lemma firstOctet_other_bits (b : byte) :
  Z.land (firstOctet (byte_to_Z b)) 252 = Z.land (byte_to_Z b) 252.
Proof. destruct b; reflexivity. Qed.

(** X15: Given six random bytes, [generateRandomMacAddress] uses up exactly
    those and returns a text of 17 characters, six two-digit lowercase
    hexadecimal octets separated by colons, that reads back as the six
    bytes, the first with its two low bits forced and its six high bits
    kept. *)
Theorem generateRandomMacAddress_format :
  forall (w : World) (b0 b1 b2 b3 b4 b5 : byte) (rest : list byte),
    w.(entropy) = b0 :: b1 :: b2 :: b3 :: b4 :: b5 :: rest ->
    exists mac,
      generateRandomMacAddress w = (Returns mac, set_entropy rest w) /\
      String.length mac = 17%nat /\
      parseMac mac = Some [firstOctet (byte_to_Z b0); byte_to_Z b1; byte_to_Z b2;
                           byte_to_Z b3; byte_to_Z b4; byte_to_Z b5] /\
      Z.land (firstOctet (byte_to_Z b0)) 252 = Z.land (byte_to_Z b0) 252.
Proof.
  intros w b0 b1 b2 b3 b4 b5 rest He.
  exists (Sprintf_mac (firstOctet (byte_to_Z b0)) (byte_to_Z b1) (byte_to_Z b2)
            (byte_to_Z b3) (byte_to_Z b4) (byte_to_Z b5)).
  split.
  { rewrite generateRandomMacAddress_run. unfold macOfEntropy, restOfEntropy.
    rewrite He. reflexivity. }
  split; [reflexivity |].
  split; [| apply firstOctet_other_bits].
  unfold parseMac, Sprintf_mac.
  rewrite parseOctets_Sprintf_02x_first.
  rewrite !parseOctets_Sprintf_02x.
  rewrite parseOctets_Sprintf_02x_last. reflexivity.
Qed.

Lemma generateRandomMacAddress_format_witness :
  exists mac,
    generateRandomMacAddress emptyHost = (Returns mac, set_entropy [] emptyHost) /\
    String.length mac = 17%nat /\
    parseMac mac = Some [2; 2; 3; 4; 5; 6]%Z /\
    Z.land 2 252 = Z.land 1 252.
Proof.
  apply (generateRandomMacAddress_format emptyHost "001" "002" "003" "004" "005" "006" []).
  reflexivity.
Defined.

(** ** What a returned [nil] stands for *)

Lemma AddOnHost_nil_IfType conf args ip w c w' :
  AddOnHost conf args ip w = (Returns (nil_error, c), w') ->
  conf.(HostConf).(IfType) = "vhostuser".
Proof.
  intros H. destruct (conf.(HostConf).(IfType) =? "vhostuser") eqn:Hif;
    [apply String.eqb_eq; exact Hif |].
  exfalso. rewrite AddOnHost_unfold in H. unfold AddOnHost_body, createStep in H.
  rewrite IfType_normalized, Hif in H. unfold bind, ret in H.
  destruct (addLocalNetworkBridge _ _ _ w) as [[[e |] | msg] w1]; discriminate H.
Qed.

(** X16: [AddOnHost] either succeeds, and then all that a later [DelFromHost]
    works from is in place (the bridge, a port on it under the
    attachment's reference string, and a record that names that port), or
    it leaves the store of records as it was. *)
Theorem AddOnHost_success_or_no_record :
  forall (conf : NetConf) (args : CmdArgs) (ip : Result) (w : World),
    let br := (normalized conf).(HostConf).(BridgeConf).(BridgeName) in
    let r := AddOnHost conf args ip w in
    (r.1 = Returns (nil_error, normalized conf) /\
     conf.(HostConf).(IfType) = "vhostuser" /\
     (br ∈ r.2.(bridges)) /\
     (exists p, r.2.(ports) !! fileBaseNameOf args = Some p /\ p.(port_bridge) = br) /\
     (exists d, r.2.(saved) !! identity args = Some d /\
                d.(Vhostname) = fileBaseNameOf args)) \/
    ((forall c, r.1 <> Returns (nil_error, c)) /\ r.2.(saved) = w.(saved)).
Proof.
  intros conf args ip w br r. subst r.
  destruct (AddOnHost conf args ip w) as [o w'] eqn:H.
  assert (Hcases : (exists c, o = Returns (nil_error, c)) \/
                   (forall c, o <> Returns (nil_error, c))).
  { destruct o as [[[e |] c] | msg];
      [right; intros c'; discriminate | left; eexists; reflexivity
      | right; intros c'; discriminate]. }
  destruct Hcases as [[c ->] | Hne].
  2: { right. split; [exact Hne |].
       pose proof (AddOnHost_failed_leaves_store conf args ip w) as Hst.
       rewrite H in Hst. exact (Hst Hne). }
  left. simpl.
  pose proof (AddOnHost_nil_IfType _ _ _ _ _ _ H) as Hif.
  assert (Hc : c = normalized conf).
  { rewrite AddOnHost_unfold in H. exact (AddOnHost_body_conf _ _ _ _ _ _ H). }
  subst c. split; [reflexivity |]. split; [exact Hif |].
  assert (Hbr : br ∈ w'.(bridges)).
  { pose proof (AddOnHost_bridge_present conf args ip w) as Hb.
    rewrite H in Hb. apply Hb. intros c. discriminate. }
  split; [exact Hbr |].
  apply AddOnHost_nil_inv in H as (w1 & w2 & d & _ & Hdev & ->).
  destruct (addLocalDeviceVhost_inv _ _ _ _ _ _ Hdev)
    as [[msg Hp] | [(e & He & _) | (w3 & w4 & mac & macErr & ifMac & _ & _ & Hw4 & _ & Hgen & Hd)]];
    [discriminate Hp | discriminate He |].
  injection Hd as ->.
  pose proof (generateRandomMacAddress_ports w4) as Hports. rewrite Hgen in Hports.
  simpl in Hports. split.
  - eexists. split.
    + simpl. rewrite Hports, Hw4. simpl. apply lookup_insert_eq.
    + simpl. rewrite NetType_normalized. reflexivity.
  - eexists. split; [simpl; apply lookup_insert_eq | reflexivity].
Qed.
